(** * Client-side view glue of the AutoGPT platform frontend

    A shallow embedding of three units of the frontend:
    - [Otto]: the floating assistant chat widget (OttoChatWidget.tsx);
    - [Credits]: the [useCredits] hook (credit balance, auto top-up
      configuration, paginated transaction history);
    - [Onboarding]: step 4 of the onboarding wizard (4-agent/page.tsx).

    React state is a record; a handler is a computation in a state and
    exception monad over that record, taking as an explicit argument the
    render it closes over.  A promise is represented by its outcome, and
    [await] on a rejected promise throws. *)

From Stdlib Require Import String Ascii NArith ZArith Bool List Lia.
From Stdlib Require Import DecimalString.
From Stdlib Require Import DecimalPos DecimalN.
Import ListNotations.

Set Implicit Arguments.

(** ** JavaScript strings and arrays *)

Module Js.

(** A JavaScript string is a sequence of UTF-16 code units. *)
Definition code_unit := N.
Definition str := list code_unit.

(** An ASCII literal of the source, as code units. *)
Definition lit (s : string) : str :=
  map N_of_ascii (list_ascii_of_string s).

Fixpoint eqb (a b : str) : bool :=
  match a, b with
  | [], [] => true
  | x :: a', y :: b' => N.eqb x y && eqb a' b'
  | _, _ => false
  end.

(** [!s] on a string: only the empty string is falsy. *)
Definition falsy (s : str) : bool :=
  match s with
  | [] => true
  | _ :: _ => false
  end.

(** [a || b] on strings. *)
Definition or_else (a b : str) : str := if falsy a then b else a.

(** White space and line terminators of ECMAScript, the code units
    that [String.prototype.trim] strips. *)
Definition is_whitespace (c : code_unit) : bool :=
  ((9 <=? c) && (c <=? 13) || (c =? 32) || (c =? 160) || (c =? 5760)
   || (8192 <=? c) && (c <=? 8202) || (c =? 8232) || (c =? 8233)
   || (c =? 8239) || (c =? 8287) || (c =? 12288) || (c =? 65279))%N.

Fixpoint trimStart (s : str) : str :=
  match s with
  | [] => []
  | c :: r => if is_whitespace c then trimStart r else s
  end.

Definition trimEnd (s : str) : str := rev (trimStart (rev s)).

Definition trim (s : str) : str := trimEnd (trimStart s).

(** Template-literal interpolation of a non-negative integer. *)
Definition of_N (n : N) : str := lit (NilZero.string_of_uint (N.to_uint n)).

(** [arr.slice(start, end)], with negative indices counted from the
    end of the array. *)
Definition clamp_index (len i : Z) : Z :=
  if (i <? 0)%Z then Z.max (len + i) 0 else Z.min i len.

Definition slice (A : Type) (arr : list A) (start stop : Z) : list A :=
  let len := Z.of_nat (length arr) in
  let k := clamp_index len start in
  let final := clamp_index len stop in
  firstn (Z.to_nat (final - k)) (skipn (Z.to_nat k) arr).

(** [arr.reduce(f, init)] where the callback also receives the index
    and the array. *)
Fixpoint reduce_from (A B : Type) (f : B -> A -> nat -> list A -> B)
    (arr : list A) (i : nat) (rest : list A) (acc : B) : B :=
  match rest with
  | [] => acc
  | x :: rest' => reduce_from f arr (S i) rest' (f acc x i arr)
  end.

Definition reduce (A B : Type) (f : B -> A -> nat -> list A -> B)
    (arr : list A) (init : B) : B :=
  reduce_from f arr 0 arr init.

End Js.

(** ** Completions and the handler monad *)

(** What a thrown or rejected value looks like to a [catch] block that
    tests [error instanceof Error] and reads [error.message]. *)
Record JsError : Type := {
  instanceof_Error : bool;
  message : Js.str
}.

(** [new Error(msg)], for a computed message and for a literal. *)
Definition Error_of (msg : Js.str) : JsError :=
  {| instanceof_Error := true; message := msg |}.

Definition new_Error (msg : string) : JsError := Error_of (Js.lit msg).

(** How a statement, or a promise, ends. *)
Inductive Completion (A : Type) : Type :=
| Normal (a : A)
| Throw (e : JsError).

Arguments Normal {A} a.
Arguments Throw {A} e.

Module Async.

(** A handler over a store of type [W]. *)
Definition M (W A : Type) : Type := W -> W * Completion A.

Definition ret (W A : Type) (a : A) : M W A := fun w => (w, Normal a).

Definition bind (W A B : Type) (m : M W A) (k : A -> M W B) : M W B :=
  fun w =>
    match m w with
    | (w', Normal a) => k a w'
    | (w', Throw e) => (w', Throw e)
    end.

Definition throw (W A : Type) (e : JsError) : M W A :=
  fun w => (w, Throw e).

(** [await p] for a promise that has settled with outcome [p]: the
    function goes on at once.  A computation of [M] is thus a handler run
    with nothing happening while its promises are pending; the states in
    between are the matter of the modules [Flight] and [CreditsFlight]. *)
Definition await (W A : Type) (p : Completion A) : M W A :=
  fun w => (w, p).

Definition modify (W : Type) (f : W -> W) : M W unit :=
  fun w => (f w, Normal tt).

(** [try { body } catch (error) { handler }]. *)
Definition try_catch (W A : Type) (body : M W A)
    (handler : JsError -> M W A) : M W A :=
  fun w =>
    match body w with
    | (w', Normal a) => (w', Normal a)
    | (w', Throw e) => handler e w'
    end.

(** [m finally { fin }]: [fin] runs however [m] ends, and the
    completion of [m] stands unless [fin] throws. *)
Definition finally (W A : Type) (m : M W A) (fin : M W unit) : M W A :=
  fun w =>
    match fin (fst (m w)) with
    | (w'', Normal _) => (w'', snd (m w))
    | (w'', Throw e) => (w'', Throw e)
    end.

(** [try { body } catch (error) { handler } finally { fin }]. *)
Definition try_catch_finally (W : Type) (body : M W unit)
    (handler : JsError -> M W unit) (fin : M W unit) : M W unit :=
  finally (try_catch body handler) fin.

(** A call of an async function whose promise is not awaited: its
    outcome is dropped.  The callee is run to its end here, as when its
    promises settle before anything else happens; the caller itself
    returns before that, see [CreditsFlight]. *)
Definition detached (W : Type) (m : M W unit) : M W unit :=
  fun w => (fst (m w), Normal tt).

Definition exec (W A : Type) (m : M W A) (w : W) : W := fst (m w).

Arguments ret {W A} a.
Arguments throw {W A} e.
Arguments await {W A} p.

End Async.

Declare Scope async_scope.
Delimit Scope async_scope with async.
Notation "x <- m ;; k" := (Async.bind m (fun x => k))
  (at level 61, m at next level, right associativity) : async_scope.
Notation "m ;; k" := (Async.bind m (fun _ => k))
  (at level 61, right associativity) : async_scope.
Local Open Scope async_scope.

(** ** The assistant chat widget *)

Module Otto.

Inductive MessageType : Type := user | assistant.

Record Message : Type := {
  type : MessageType;
  content : Js.str
}.

Definition is_user (m : Message) : bool :=
  match type m with user => true | assistant => false end.

Definition is_assistant (m : Message) : bool :=
  match type m with assistant => true | user => false end.

(** An element of [conversation_history]. *)
Record Turn : Type := {
  query : Js.str;
  response : Js.str
}.

(** The callback of the [reduce] in [handleSubmit].  [arr[i + 1]] is
    undefined exactly when [i + 1 < arr.length] fails, and the callback
    then returns [acc] as it is. *)
Definition pairing_step (acc : list Turn) (msg : Message) (i : nat)
    (arr : list Message) : list Turn :=
  match nth_error arr (i + 1) with
  | Some next =>
      if is_user msg && (i + 1 <? length arr) && is_assistant next
      then acc ++ [ {| query := content msg; response := content next |} ]
      else acc
  | None => acc
  end.

Definition conversation_history (messages : list Message) : list Turn :=
  Js.reduce pairing_step messages [].

(** The pairing in the words of the specification: a user message is
    paired with the assistant message that immediately follows it. *)
Fixpoint paired_turns (transcript : list Message) : list Turn :=
  match transcript with
  | [] => []
  | m :: rest =>
      match rest with
      | n :: _ =>
          if is_user m && is_assistant n
          then {| query := content m; response := content n |}
                 :: paired_turns rest
          else paired_turns rest
      | [] => []
      end
  end.

(** *** View state *)

Record WidgetState : Type := {
  isOpen : bool;
  messages : list Message;
  inputValue : Js.str;
  isProcessing : bool;
  includeGraphData : bool
}.

(** The values passed to [useState]. *)
Definition initial_state : WidgetState :=
  {| isOpen := false; messages := []; inputValue := [];
     isProcessing := false; includeGraphData := false |}.

(** *** What the handler sends and receives *)

Module Toast.
Record t : Type := {
  title : Js.str;
  description : Js.str;
  variant : Js.str
}.
End Toast.

Module Payload.
Record t : Type := {
  query : Js.str;
  conversation_history : list Turn;
  user_id : Js.str;
  message_id : Js.str;
  include_graph_data : bool;
  graph_id : option Js.str
}.
End Payload.

(** The argument of [fetch].  The body is kept as the payload object
    that the source hands to [JSON.stringify]. *)
Module Request.
Record t : Type := {
  url : Js.str;
  method : Js.str;
  headers : list (Js.str * Js.str);
  body : Payload.t
}.
End Request.

(** The fields of [ApiResponse] that the widget can observe. *)
Record ApiResponse : Type := {
  answer : Js.str;
  success : bool
}.

Module Response.
Record t : Type := {
  status : N;
  json : Completion ApiResponse
}.

(** [response.ok]: the status is in the range 200 to 299. *)
Definition ok (r : t) : bool := ((200 <=? status r) && (status r <=? 299))%N.
End Response.

Record User : Type := { id : Js.str }.

Record Session : Type := { access_token : Js.str }.

(** What one call of the handler finds around it: the values of the
    other hooks in the render it closes over, and the outcomes of the
    promises it awaits. *)
Record Env : Type := {
  (** [None]: the client is null; [Some p]: the outcome of
      [supabase.auth.getSession()], whose session may be null. *)
  supabase : option (Completion (option Session));
  supabase_user : option User;
  flowID : option Js.str;
  Date_now : N;
  NEXT_PUBLIC_BACKEND_URL : option Js.str;
  fetch : Request.t -> Completion Response.t
}.

(** The store the handler acts on: the view state and what it has
    emitted. *)
Record World : Type := {
  view : WidgetState;
  toasts : list Toast.t;
  console_errors : list JsError;
  requests : list Request.t;
  defaultPrevented : bool
}.

Definition initial_world : World :=
  {| view := initial_state; toasts := []; console_errors := [];
     requests := []; defaultPrevented := false |}.

Definition with_view (f : WidgetState -> WidgetState) (w : World) : World :=
  {| view := f (view w); toasts := toasts w;
     console_errors := console_errors w; requests := requests w;
     defaultPrevented := defaultPrevented w |}.

(** *** State setters; each takes an updater function *)

Definition setIsOpen (f : bool -> bool) : Async.M World unit :=
  Async.modify (with_view (fun v =>
    {| isOpen := f (isOpen v); messages := messages v;
       inputValue := inputValue v; isProcessing := isProcessing v;
       includeGraphData := includeGraphData v |})).

Definition setMessages (f : list Message -> list Message)
    : Async.M World unit :=
  Async.modify (with_view (fun v =>
    {| isOpen := isOpen v; messages := f (messages v);
       inputValue := inputValue v; isProcessing := isProcessing v;
       includeGraphData := includeGraphData v |})).

Definition setInputValue (f : Js.str -> Js.str) : Async.M World unit :=
  Async.modify (with_view (fun v =>
    {| isOpen := isOpen v; messages := messages v;
       inputValue := f (inputValue v); isProcessing := isProcessing v;
       includeGraphData := includeGraphData v |})).

Definition setIsProcessing (f : bool -> bool) : Async.M World unit :=
  Async.modify (with_view (fun v =>
    {| isOpen := isOpen v; messages := messages v;
       inputValue := inputValue v; isProcessing := f (isProcessing v);
       includeGraphData := includeGraphData v |})).

Definition setIncludeGraphData (f : bool -> bool) : Async.M World unit :=
  Async.modify (with_view (fun v =>
    {| isOpen := isOpen v; messages := messages v;
       inputValue := inputValue v; isProcessing := isProcessing v;
       includeGraphData := f (includeGraphData v) |})).

(** A setter called with a value instead of an updater. *)
Definition value (A : Type) (a : A) : A -> A := fun _ => a.

(** *** Emissions *)

Definition preventDefault : Async.M World unit :=
  Async.modify (fun w =>
    {| view := view w; toasts := toasts w;
       console_errors := console_errors w; requests := requests w;
       defaultPrevented := true |}).

Definition toast (t : Toast.t) : Async.M World unit :=
  Async.modify (fun w =>
    {| view := view w; toasts := toasts w ++ [t];
       console_errors := console_errors w; requests := requests w;
       defaultPrevented := defaultPrevented w |}).

Definition console_error (e : JsError) : Async.M World unit :=
  Async.modify (fun w =>
    {| view := view w; toasts := toasts w;
       console_errors := console_errors w ++ [e]; requests := requests w;
       defaultPrevented := defaultPrevented w |}).

(** [await fetch(...)]: the request leaves, then the promise settles. *)
Definition await_fetch (env : Env) (rq : Request.t)
    : Async.M World Response.t :=
  Async.modify (fun w =>
    {| view := view w; toasts := toasts w;
       console_errors := console_errors w; requests := requests w ++ [rq];
       defaultPrevented := defaultPrevented w |}) ;;
  Async.await (fetch env rq).

(** *** Messages the widget writes into the transcript *)

Definition welcome_message : Message :=
  {| type := assistant;
     content := Js.lit "Hello im Otto! Ask me anything about AutoGPT!" |}.

Definition processing_message : Message :=
  {| type := assistant; content := Js.lit "Processing your question..." |}.

Definition sign_in_text : Js.str :=
  Js.lit "Please sign in to use the chat feature.".

Definition retry_text : Js.str :=
  Js.lit
    "Sorry, there was an error processing your message. Please try again.".

(** The toast of the 401 branch. *)
Definition authentication_toast : Toast.t :=
  {| Toast.title := Js.lit "Authentication Error";
     Toast.description := Js.lit "Please sign in to use the chat feature.";
     Toast.variant := Js.lit "destructive" |}.

(** *** The welcome effect, run once on mount *)

Definition welcome_effect (r : WidgetState) : Async.M World unit :=
  if length (messages r) =? 0
  then setMessages (value [welcome_message])
  else Async.ret tt.

(** *** The request of [handleSubmit] *)

(** The [payload] object; [r] is the render the handler closes over
    and [userMessage] the trimmed input. *)
Definition ask_payload (env : Env) (r : WidgetState) (userMessage : Js.str)
    : Payload.t :=
  let messageId := Js.of_N (Date_now env) ++ Js.lit "-web" in
  {| Payload.query := userMessage;
     Payload.conversation_history := conversation_history (messages r);
     Payload.user_id :=
       Js.or_else
         (match supabase_user env with
          | Some u => id u
          | None => []
          end)
         (Js.lit "anonymous");
     Payload.message_id := messageId;
     Payload.include_graph_data := includeGraphData r;
     Payload.graph_id :=
       match flowID env with
       | Some f => if Js.falsy f then None else Some f
       | None => None
       end |}.

(** The arguments of the call of [fetch]. *)
Definition ask_request (env : Env) (session : Session) (payload : Payload.t)
    : Request.t :=
  let BACKEND_URL :=
    Js.or_else
      (match NEXT_PUBLIC_BACKEND_URL env with
       | Some u => u
       | None => []
       end)
      (Js.lit "http://localhost:8006") in
  {| Request.url := BACKEND_URL ++ Js.lit "/api/otto/ask";
     Request.method := Js.lit "POST";
     Request.headers :=
       [ (Js.lit "Content-Type", Js.lit "application/json");
         (Js.lit "Accept", Js.lit "application/json");
         (Js.lit "Authorization", Js.lit "Bearer " ++ access_token session) ];
     Request.body := payload |}.

(** The [errorMessage] of the [catch] block, for the caught value. *)
Definition errorMessage (error : JsError) : Js.str :=
  if instanceof_Error error
     && Js.eqb (message error) (Js.lit "No active session")
  then Js.lit "Please sign in to use the chat feature."
  else
    Js.lit
      "Sorry, there was an error processing your message. Please try again.".

(** *** [handleSubmit]; [r] is the render the handler closes over *)

Definition handleSubmit (env : Env) (r : WidgetState)
    : Async.M World unit :=
  preventDefault ;;
  if Js.falsy (Js.trim (inputValue r)) || isProcessing r
  then Async.ret tt
  else
    let userMessage := Js.trim (inputValue r) in
    setInputValue (value []) ;;
    setIsProcessing (value true) ;;
    setMessages (fun prev =>
      prev ++ [ {| type := user; content := userMessage |} ]) ;;
    Async.try_catch_finally
      (match supabase env with
       | None => Async.throw (new_Error "Supabase client not initialized")
       | Some getSession =>
           session <- Async.await getSession ;;
           match session with
           | None => Async.throw (new_Error "No active session")
           | Some session =>
               let payload := ask_payload env r userMessage in
               setIncludeGraphData (value false) ;;
               setMessages (fun prev => prev ++ [processing_message]) ;;
               response <- await_fetch env (ask_request env session payload) ;;
               (if negb (Response.ok response)
                then
                  (if (Response.status response =? 401)%N
                   then
                     toast authentication_toast ;;
                     Async.throw (new_Error "Authentication required")
                   else Async.ret tt) ;;
                  Async.throw
                    (Error_of
                       (Js.lit "API request failed with status "
                          ++ Js.of_N (Response.status response)))
                else Async.ret tt) ;;
               data <- Async.await (Response.json response) ;;
               setMessages (fun prev =>
                 Js.slice prev 0 (-1)
                   ++ [ {| type := assistant; content := answer data |} ])
           end
       end)
      (fun error =>
         console_error error ;;
         setMessages (fun prev =>
           Js.slice prev 0 (-1)
             ++ [ {| type := assistant; content := errorMessage error |} ]))
      (setIsProcessing (value false)).

(** *** The widget as a transition system *)

(** A submission made from the current render: the handler closes
    over the state it then acts on. *)
Definition submit (env : Env) (w : World) : World :=
  Async.exec (handleSubmit env (view w)) w.

Inductive Event : Type :=
| Submit (env : Env)
| Change (text : Js.str)
| ToggleGraphData
| OpenChat
| CloseChat.

Definition dispatch (w : World) (ev : Event) : World :=
  match ev with
  | Submit env => submit env w
  | Change text => Async.exec (setInputValue (value text)) w
  | ToggleGraphData => Async.exec (setIncludeGraphData negb) w
  | OpenChat => Async.exec (setIsOpen (value true)) w
  | CloseChat => Async.exec (setIsOpen (value false)) w
  end.

(** The widget once mounted: initial state, then the welcome effect. *)
Definition mounted : World :=
  Async.exec (welcome_effect initial_state) initial_world.

Definition run (events : list Event) : World :=
  fold_left dispatch events mounted.

End Otto.

(** ** The [useCredits] hook *)

Module Credits.

Section UseCredits.

(** [number] is the type of credit amounts, [Transaction] and [Time]
    the element and cursor types of the transaction history, and
    [Server] the state of the backend behind the API client. *)
Variables number Transaction Time Server : Type.

Record AutoTopUpConfig : Type := {
  amount : number;
  threshold : number
}.

Record TransactionHistory : Type := {
  transactions : list Transaction;
  next_transaction_time : option Time
}.

Record CreditResponse : Type := { response_credits : number }.

Record TopUpResponse : Type := { checkout_url : Js.str }.

(** The methods of the API client that the hook calls.  The class
    is declared outside the hook's file and is taken as a
    parameter: each method acts on the backend and its promise
    settles with a value or a rejection. *)
Record AutoGPTServerAPI : Type := {
  api_getUserCredit : Server -> Server * Completion CreditResponse;
  api_getAutoTopUpConfig : Server -> Server * Completion AutoTopUpConfig;
  api_setAutoTopUpConfig :
    AutoTopUpConfig -> Server -> Server * Completion unit;
  api_requestTopUp : number -> Server -> Server * Completion TopUpResponse;
  api_getTransactionHistory :
    option Time -> N -> Server -> Server * Completion TransactionHistory
}.

Variable api : AutoGPTServerAPI.

(** A call of the API client, with its arguments and how it settled. *)
Inductive ApiCall : Type :=
| GetUserCredit (result : Completion CreditResponse)
| GetAutoTopUpConfig (result : Completion AutoTopUpConfig)
| SetAutoTopUpConfig (config : AutoTopUpConfig) (result : Completion unit)
| RequestTopUp (credit_amount : number) (result : Completion TopUpResponse)
| GetTransactionHistory (last_transaction_time : option Time) (count : N)
    (result : Completion TransactionHistory).

(** The three [useState] cells of the hook. *)
Record HookState : Type := {
  credits : option number;
  autoTopUpConfig : option AutoTopUpConfig;
  transactionHistory : TransactionHistory
}.

Definition initial_state : HookState :=
  {| credits := None;
     autoTopUpConfig := None;
     transactionHistory :=
       {| transactions := []; next_transaction_time := None |} |}.

Record World : Type := {
  hook : HookState;
  server : Server;
  calls : list ApiCall;
  router_pushed : list Js.str
}.

Definition initial_world (s : Server) : World :=
  {| hook := initial_state; server := s; calls := [];
     router_pushed := [] |}.

(** [await api.method(args)]: the backend moves, the call is
    recorded, and the promise's outcome comes back. *)
Definition call (A : Type) (method : Server -> Server * Completion A)
    (entry : Completion A -> ApiCall) : Async.M World A :=
  fun w =>
    let (s', result) := method (server w) in
    ({| hook := hook w; server := s'; calls := calls w ++ [entry result];
        router_pushed := router_pushed w |}, result).

Definition with_hook (f : HookState -> HookState) (w : World) : World :=
  {| hook := f (hook w); server := server w; calls := calls w;
     router_pushed := router_pushed w |}.

Definition setCredits (v : option number) : Async.M World unit :=
  Async.modify (with_hook (fun h =>
    {| credits := v; autoTopUpConfig := autoTopUpConfig h;
       transactionHistory := transactionHistory h |})).

Definition setAutoTopUpConfig (v : option AutoTopUpConfig)
    : Async.M World unit :=
  Async.modify (with_hook (fun h =>
    {| credits := credits h; autoTopUpConfig := v;
       transactionHistory := transactionHistory h |})).

Definition setTransactionHistory (v : TransactionHistory)
    : Async.M World unit :=
  Async.modify (with_hook (fun h =>
    {| credits := credits h; autoTopUpConfig := autoTopUpConfig h;
       transactionHistory := v |})).

Definition router_push (href : Js.str) : Async.M World unit :=
  Async.modify (fun w =>
    {| hook := hook w; server := server w; calls := calls w;
       router_pushed := router_pushed w ++ [href] |}).

Definition fetchCredits : Async.M World unit :=
  response <- call (api_getUserCredit api) GetUserCredit ;;
  setCredits (Some (response_credits response)).

Definition fetchAutoTopUpConfig : Async.M World unit :=
  response <- call (api_getAutoTopUpConfig api) GetAutoTopUpConfig ;;
  setAutoTopUpConfig (Some response).

Definition updateAutoTopUpConfig (amount threshold : number)
    : Async.M World unit :=
  let config := {| amount := amount; threshold := threshold |} in
  call (api_setAutoTopUpConfig api config) (SetAutoTopUpConfig config) ;;
  Async.detached fetchAutoTopUpConfig.

(** [stripePromise] settles with the Stripe client or with null;
    only its presence is looked at. *)
Definition requestTopUp (stripePromise : Completion (option unit))
    (credit_amount : number) : Async.M World unit :=
  stripe <- Async.await stripePromise ;;
  match stripe with
  | None => Async.ret tt
  | Some _ =>
      response <-
        call (api_requestTopUp api credit_amount)
          (RequestTopUp credit_amount) ;;
      router_push (checkout_url response)
  end.

(** [r] is the [transactionHistory] of the render the callback
    closes over. *)
Definition fetchTransactionHistory (r : TransactionHistory)
    : Async.M World unit :=
  response <-
    call (api_getTransactionHistory api (next_transaction_time r) 20)
      (GetTransactionHistory (next_transaction_time r) 20) ;;
  setTransactionHistory
    {| transactions := transactions r ++ transactions response;
       next_transaction_time := next_transaction_time response |}.

(** A call made from the current render, that is, after the
    previous call has settled and the hook has rendered again. *)
Definition fetchTransactionHistory_now : Async.M World unit :=
  fun w => fetchTransactionHistory (transactionHistory (hook w)) w.

(** [n] such calls, one after the other. *)
Fixpoint fetches (n : nat) : Async.M World unit :=
  match n with
  | O => Async.ret tt
  | S n' => fetchTransactionHistory_now ;; fetches n'
  end.

(** The pages the history calls returned, in arrival order. *)
Definition pages_of (log : list ApiCall) : list TransactionHistory :=
  flat_map (fun c =>
    match c with
    | GetTransactionHistory _ _ (Normal page) => [page]
    | _ => []
    end) log.

(** The cursor and page size of each history call, in call order. *)
Definition history_requests (log : list ApiCall)
    : list (option Time * N) :=
  flat_map (fun c =>
    match c with
    | GetTransactionHistory cursor count _ => [(cursor, count)]
    | _ => []
    end) log.

End UseCredits.

End Credits.

(** ** Onboarding, step 4: choosing an agent *)

Module Onboarding.

(** The two fields of [StoreAgentDetails] that the click handlers
    read. *)
Record StoreAgentDetails : Type := {
  slug : Js.str;
  creator : Js.str
}.

(** The object literal the page passes to [setState]. *)
Record Selection : Type := {
  new_selectedAgentSlug : Js.str;
  new_selectedAgentCreator : Js.str
}.

Definition isEmptyOrWhitespace (str : option Js.str) : bool :=
  match str with
  | None => true
  | Some s => Js.falsy s || (length (Js.trim s) =? 0)
  end.

Section Wizard.

(** What the other steps of the wizard keep in the shared state. *)
Variable Other : Type.

(** Modelled from the spec: the wizard-scoped state returned by
    [useOnboarding], declared in the layout module, which is not
    part of the sources.  It holds the selected identifier and its
    grouping identifier, absent until a card is chosen, next to
    what the other steps store. *)
Record OnboardingState : Type := {
  selectedAgentSlug : option Js.str;
  selectedAgentCreator : option Js.str;
  other_steps : Other
}.

(** Modelled from the spec: [setState] of [useOnboarding], declared
    in the layout module, which is not part of the sources.
    Selecting a card writes its identifier and the associated
    grouping identifier into the shared wizard state. *)
Definition setState (s : Selection) : Async.M OnboardingState unit :=
  Async.modify (fun st =>
    {| selectedAgentSlug := Some (new_selectedAgentSlug s);
       selectedAgentCreator := Some (new_selectedAgentCreator s);
       other_steps := other_steps st |}).

(** Reading a property of [agents[i]] when it is undefined. *)
Definition TypeError : JsError :=
  new_Error "Cannot read properties of undefined (reading 'slug')".

(** [onClick] of the card at index [i]; [agents] is the array of
    the render the handler closes over. *)
Definition onClick (agents : list StoreAgentDetails) (i : nat)
    : Async.M OnboardingState unit :=
  match nth_error agents i with
  | Some agent =>
      setState
        {| new_selectedAgentSlug := slug agent;
           new_selectedAgentCreator := creator agent |}
  | None => Async.throw TypeError
  end.

(** The [selected] prop of the card at index [i]. *)
Definition selected (agents : list StoreAgentDetails) (i : nat)
    (state : OnboardingState) : bool :=
  match nth_error agents i with
  | Some agent =>
      match selectedAgentSlug state with
      | Some s => Js.eqb s (slug agent)
      | None => false
      end
  | None => false
  end.

(** The [disabled] prop of the Next button. *)
Definition next_disabled (state : OnboardingState) : bool :=
  isEmptyOrWhitespace (selectedAgentSlug state).

End Wizard.

End Onboarding.

(** ** Concrete runs *)

Module Scenarios.

(** The chat widget after mount, with a question typed and the
    graph-data button switched on. *)
Definition asking : Otto.World :=
  Otto.run [Otto.Change (Js.lit "How do I add a block?"); Otto.ToggleGraphData].

(** The widget while an earlier question is still in flight. *)
Definition busy : Otto.World :=
  Otto.with_view
    (fun v =>
       {| Otto.isOpen := Otto.isOpen v; Otto.messages := Otto.messages v;
          Otto.inputValue := Otto.inputValue v; Otto.isProcessing := true;
          Otto.includeGraphData := Otto.includeGraphData v |})
    asking.

(** Only blanks and a tab typed. *)
Definition blank : Otto.World :=
  Otto.run [Otto.Change [32; 9; 160; 32]%N].

Definition failed_to_fetch : JsError :=
  {| instanceof_Error := true; message := Js.lit "Failed to fetch" |}.

(** The Supabase client is there, but nobody is signed in. *)
Definition signed_out : Otto.Env :=
  {| Otto.supabase := Some (Normal None);
     Otto.supabase_user := None;
     Otto.flowID := None;
     Otto.Date_now := 1739000000000;
     Otto.NEXT_PUBLIC_BACKEND_URL := None;
     Otto.fetch := fun _ => Throw failed_to_fetch |}.

Definition signed_in (backend : Otto.Request.t -> Completion Otto.Response.t)
    : Otto.Env :=
  {| Otto.supabase :=
       Some (Normal (Some {| Otto.access_token := Js.lit "token" |}));
     Otto.supabase_user := Some {| Otto.id := Js.lit "user-1" |};
     Otto.flowID := Some (Js.lit "flow-1");
     Otto.Date_now := 1739000000000;
     Otto.NEXT_PUBLIC_BACKEND_URL := None;
     Otto.fetch := backend |}.

(** The backend rejects the bearer token. *)
Definition unauthorized : Otto.Env :=
  signed_in (fun _ =>
    Normal {| Otto.Response.status := 401;
              Otto.Response.json := Throw failed_to_fetch |}).

(** The backend answers. *)
Definition answered : Otto.Env :=
  signed_in (fun _ =>
    Normal {| Otto.Response.status := 200;
              Otto.Response.json :=
                Normal {| Otto.answer := Js.lit "Drag it from the menu.";
                          Otto.success := true |} |}).

(** A backend for the credits hook: amounts are integers, the server
    state is the stored auto top-up configuration together with the
    transactions not yet handed out, and pages hold two entries.  The
    server clamps a written threshold to at least 100. *)
Definition Ledger : Type :=
  (Credits.AutoTopUpConfig Z * list nat)%type.

Definition ledger_api : Credits.AutoGPTServerAPI Z nat nat Ledger :=
  {| Credits.api_getUserCredit := fun s =>
       (s, Normal {| Credits.response_credits := 500%Z |});
     Credits.api_getAutoTopUpConfig := fun s => (s, Normal (fst s));
     Credits.api_setAutoTopUpConfig := fun c s =>
       (({| Credits.amount := Credits.amount c;
            Credits.threshold := Z.max 100 (Credits.threshold c) |}, snd s),
        Normal tt);
     Credits.api_requestTopUp := fun _ s =>
       (s, Normal {| Credits.checkout_url := Js.lit "https://checkout" |});
     Credits.api_getTransactionHistory := fun _ count s =>
       let page := firstn 2 (snd s) in
       let left := skipn 2 (snd s) in
       ((fst s, left),
        Normal {| Credits.transactions := page;
                  Credits.next_transaction_time := hd_error left |}) |}.

Definition ledger : Ledger :=
  ({| Credits.amount := 0%Z; Credits.threshold := 0%Z |}, [50; 40; 30; 20]).

Definition after_two_fetches : Credits.World Z nat nat Ledger :=
  Async.exec (Credits.fetches ledger_api 2)
    (Credits.initial_world Z nat nat ledger).

(** The two cards of the onboarding step, once loaded. *)
Definition subtractor : Onboarding.StoreAgentDetails :=
  {| Onboarding.slug := Js.lit "subtractor";
     Onboarding.creator := Js.lit "bright-eagle-40613" |}.

Definition power : Onboarding.StoreAgentDetails :=
  {| Onboarding.slug := Js.lit "power";
     Onboarding.creator := Js.lit "autogpt" |}.

Definition nothing_selected : Onboarding.OnboardingState unit :=
  {| Onboarding.selectedAgentSlug := None;
     Onboarding.selectedAgentCreator := None;
     Onboarding.other_steps := tt |}.

End Scenarios.

(** ** Further parts of the three files *)

(** *** The [code] component of the chat widget's markdown renderer *)

Module Markdown.

(** [\w] of a regular expression without the unicode flag. *)
Definition is_word (c : Js.code_unit) : bool :=
  ((48 <=? c) && (c <=? 57) || (65 <=? c) && (c <=? 90)
   || (97 <=? c) && (c <=? 122) || (c =? 95))%N.

(** [s] without the leading [prefix], when it starts with it. *)
Fixpoint strip_prefix (prefix s : Js.str) : option Js.str :=
  match prefix, s with
  | [], _ => Some s
  | p :: prefix', c :: s' =>
      if (p =? c)%N then strip_prefix prefix' s' else None
  | _ :: _, [] => None
  end.

(** The longest run of word characters at the start of [s]: what the
    greedy [\w+] consumes. *)
Fixpoint word_run (s : Js.str) : Js.str :=
  match s with
  | [] => []
  | c :: r => if is_word c then c :: word_run r else []
  end.

(** A match of [language-(\w+)] that starts at the first code unit of
    [s]; the result is the captured group. *)
Definition language_at (s : Js.str) : option Js.str :=
  match strip_prefix (Js.lit "language-") s with
  | Some rest =>
      match word_run rest with
      | [] => None
      | w => Some w
      end
  | None => None
  end.

(** [/language-(\w+)/.exec(s)]: the leftmost match, or null. *)
Fixpoint exec_language (s : Js.str) : option Js.str :=
  match language_at s with
  | Some w => Some w
  | None =>
      match s with
      | [] => None
      | _ :: r => exec_language r
      end
  end.

(** What the [code] component returns: a [pre] block around the code
    element, or the bare inline code element. *)
Inductive CodeElement : Type := Block | Inline.

Definition code (className : option Js.str) : CodeElement :=
  match exec_language
          (Js.or_else (match className with Some c => c | None => [] end) [])
  with
  | Some _ => Block
  | None => Inline
  end.

End Markdown.

(** *** The effects the credits hook runs on mount *)

Module CreditsEffects.

Section Mount.

Variables number Transaction Time Server : Type.
Variable api : Credits.AutoGPTServerAPI number Transaction Time Server.

(** The three effects, in the order the hook declares them.  None of
    the calls is awaited; the history callback is the one of the first
    render. *)
Definition mount
    : Async.M (Credits.World number Transaction Time Server) unit :=
  Async.detached (Credits.fetchCredits api) ;;
  Async.detached (Credits.fetchAutoTopUpConfig api) ;;
  Async.detached
    (Credits.fetchTransactionHistory api
       (Credits.transactionHistory
          (Credits.initial_state number Transaction Time))).

End Mount.

End CreditsEffects.

(** *** The effect of the onboarding step that loads the two agents *)

Module AgentStep.

(** [Promise.all([first, second]).then(setAgents)]: the callback runs
    only when both promises resolve. *)
Definition load_agents
    (first second : Completion Onboarding.StoreAgentDetails)
    (agents : list Onboarding.StoreAgentDetails)
    : list Onboarding.StoreAgentDetails :=
  match first, second with
  | Normal a, Normal b => [a; b]
  | _, _ => agents
  end.

(** The array passed to [useState]. *)
Definition initial_agents : list Onboarding.StoreAgentDetails := [].

End AgentStep.

(** ** The handlers between their awaits

    An async function runs up to an [await], gives control back, and is
    resumed when the awaited promise settles; other events of the page
    run in between.  The definitions above run a handler as if every
    promise had settled already.  Here the same handlers are cut at their
    awaits, so that the states in between can be spoken about. *)

(** *** [handleSubmit] of the chat widget *)

Module Flight.

(** The promise a suspended [handleSubmit] waits for, with the outcome
    it will settle with. *)
Inductive Await : Type :=
| AwaitSession (getSession : Completion (option Otto.Session))
| AwaitFetch (response : Completion Otto.Response.t)
| AwaitJson (data : Completion Otto.ApiResponse).

(** The catch block followed by the finally block. *)
Definition recover (error : JsError) : Async.M Otto.World unit :=
  Otto.console_error error ;;
  Otto.setMessages (fun prev =>
    Js.slice prev 0 (-1)
      ++ [ {| Otto.type := Otto.assistant;
              Otto.content := Otto.errorMessage error |} ]) ;;
  Otto.setIsProcessing (Otto.value false).

(** [fetch] is called: the request leaves. *)
Definition send (rq : Otto.Request.t) : Async.M Otto.World unit :=
  Async.modify (fun w =>
    {| Otto.view := Otto.view w; Otto.toasts := Otto.toasts w;
       Otto.console_errors := Otto.console_errors w;
       Otto.requests := Otto.requests w ++ [rq];
       Otto.defaultPrevented := Otto.defaultPrevented w |}).

(** From the call of [handleSubmit] to its first await, or to its end
    when the guard or the missing client stops it before.  [r] is the
    render the handler closes over, [w] the store it acts on. *)
Definition start (env : Otto.Env) (r : Otto.WidgetState) (w : Otto.World)
    : Otto.World * option Await :=
  let w0 := Async.exec Otto.preventDefault w in
  if Js.falsy (Js.trim (Otto.inputValue r)) || Otto.isProcessing r
  then (w0, None)
  else
    let userMessage := Js.trim (Otto.inputValue r) in
    let w1 :=
      Async.exec
        (Otto.setInputValue (Otto.value []) ;;
         Otto.setIsProcessing (Otto.value true) ;;
         Otto.setMessages (fun prev =>
           prev ++ [ {| Otto.type := Otto.user;
                        Otto.content := userMessage |} ]))
        w0 in
    match Otto.supabase env with
    | None =>
        (Async.exec (recover (new_Error "Supabase client not initialized")) w1,
         None)
    | Some getSession => (w1, Some (AwaitSession getSession))
    end.

(** From the settling of the awaited promise to the next await, or to
    the end of the handler. *)
Definition resume (env : Otto.Env) (r : Otto.WidgetState) (a : Await)
    (w : Otto.World) : Otto.World * option Await :=
  match a with
  | AwaitSession (Throw e) => (Async.exec (recover e) w, None)
  | AwaitSession (Normal None) =>
      (Async.exec (recover (new_Error "No active session")) w, None)
  | AwaitSession (Normal (Some session)) =>
      let userMessage := Js.trim (Otto.inputValue r) in
      let payload := Otto.ask_payload env r userMessage in
      let rq := Otto.ask_request env session payload in
      (Async.exec
         (Otto.setIncludeGraphData (Otto.value false) ;;
          Otto.setMessages (fun prev => prev ++ [Otto.processing_message]) ;;
          send rq)
         w,
       Some (AwaitFetch (Otto.fetch env rq)))
  | AwaitFetch (Throw e) => (Async.exec (recover e) w, None)
  | AwaitFetch (Normal response) =>
      if negb (Otto.Response.ok response)
      then
        if (Otto.Response.status response =? 401)%N
        then
          (Async.exec
             (Otto.toast Otto.authentication_toast ;;
              recover (new_Error "Authentication required"))
             w,
           None)
        else
          (Async.exec
             (recover
                (Error_of
                   (Js.lit "API request failed with status "
                      ++ Js.of_N (Otto.Response.status response))))
             w,
           None)
      else (w, Some (AwaitJson (Otto.Response.json response)))
  | AwaitJson (Throw e) => (Async.exec (recover e) w, None)
  | AwaitJson (Normal data) =>
      (Async.exec
         (Otto.setMessages (fun prev =>
            Js.slice prev 0 (-1)
              ++ [ {| Otto.type := Otto.assistant;
                      Otto.content := Otto.answer data |} ]) ;;
          Otto.setIsProcessing (Otto.value false))
         w,
       None)
  end.

(** The handler run with nothing in between: every promise settles as
    soon as it is awaited.  [handleSubmit] has three awaits. *)
Fixpoint settle_all (env : Otto.Env) (r : Otto.WidgetState) (awaits : nat)
    (s : Otto.World * option Await) : Otto.World :=
  match awaits, snd s with
  | S k, Some a => settle_all env r k (resume env r a (fst s))
  | _, _ => fst s
  end.

(** A call of [handleSubmit] that is suspended: what it closes over
    and what it waits for. *)
Record Call : Type := {
  call_env : Otto.Env;
  call_render : Otto.WidgetState;
  awaiting : Await
}.

(** The widget together with the calls in flight. *)
Record Widget : Type := {
  world : Otto.World;
  pending : list Call
}.

Inductive Event : Type :=
| Submit (env : Otto.Env)
| Settle (n : nat)
| Change (text : Js.str)
| ToggleGraphData
| OpenChat
| CloseChat.

Definition suspended (env : Otto.Env) (r : Otto.WidgetState)
    (next : option Await) : list Call :=
  match next with
  | Some a => [ {| call_env := env; call_render := r; awaiting := a |} ]
  | None => []
  end.

(** One event.  A submission runs the handler of the current render up
    to its first await.  [Settle n] settles the promise the [n]-th call
    in flight waits for.  The input box is disabled while [isProcessing]
    is set, so it takes no change then; the graph-data button and the
    open and close buttons are always live. *)
Definition step (s : Widget) (ev : Event) : Widget :=
  match ev with
  | Submit env =>
      let r := Otto.view (world s) in
      let started := start env r (world s) in
      {| world := fst started;
         pending := pending s ++ suspended env r (snd started) |}
  | Settle n =>
      match nth_error (pending s) n with
      | Some c =>
          let resumed :=
            resume (call_env c) (call_render c) (awaiting c) (world s) in
          {| world := fst resumed;
             pending :=
               firstn n (pending s)
                 ++ suspended (call_env c) (call_render c) (snd resumed)
                 ++ skipn (S n) (pending s) |}
      | None => s
      end
  | Change text =>
      if Otto.isProcessing (Otto.view (world s))
      then s
      else
        {| world := Otto.dispatch (world s) (Otto.Change text);
           pending := pending s |}
  | ToggleGraphData =>
      {| world := Otto.dispatch (world s) Otto.ToggleGraphData;
         pending := pending s |}
  | OpenChat =>
      {| world := Otto.dispatch (world s) Otto.OpenChat;
         pending := pending s |}
  | CloseChat =>
      {| world := Otto.dispatch (world s) Otto.CloseChat;
         pending := pending s |}
  end.

(** The widget once mounted, with nothing in flight. *)
Definition mounted : Widget := {| world := Otto.mounted; pending := [] |}.

Definition run (events : list Event) : Widget :=
  fold_left step events mounted.

End Flight.

(** *** The calls of the credits hook *)

Module CreditsFlight.

Section Calls.

Variables number Transaction Time Server : Type.
Variable api : Credits.AutoGPTServerAPI number Transaction Time Server.

(** [fetchAutoTopUpConfig], from its call to its await: the read is
    issued and its promise is pending. *)
Definition fetchAutoTopUpConfig_start
    (w : Credits.World number Transaction Time Server)
    : Credits.World number Transaction Time Server
      * Completion (Credits.AutoTopUpConfig number) :=
  Credits.call (Credits.api_getAutoTopUpConfig api)
    (@Credits.GetAutoTopUpConfig number Transaction Time) w.

(** [fetchAutoTopUpConfig], resumed when the read has settled. *)
Definition fetchAutoTopUpConfig_settle
    (read : Completion (Credits.AutoTopUpConfig number))
    : Async.M (Credits.World number Transaction Time Server) unit :=
  response <- Async.await read ;;
  Credits.setAutoTopUpConfig (Some response).

(** [updateAutoTopUpConfig], from its call to its await: the write is
    issued and its promise is pending. *)
Definition updateAutoTopUpConfig_start (amount threshold : number)
    (w : Credits.World number Transaction Time Server)
    : Credits.World number Transaction Time Server * Completion unit :=
  let config := {| Credits.amount := amount; Credits.threshold := threshold |} in
  Credits.call (Credits.api_setAutoTopUpConfig api config)
    (Credits.SetAutoTopUpConfig Transaction Time config) w.

(** [updateAutoTopUpConfig], resumed when the write has settled, up to
    its return: the store, how the call completes, and the read it has
    started without awaiting it, if any. *)
Definition updateAutoTopUpConfig_return (write : Completion unit)
    (w : Credits.World number Transaction Time Server)
    : Credits.World number Transaction Time Server * Completion unit
      * option (Completion (Credits.AutoTopUpConfig number)) :=
  match write with
  | Normal _ =>
      let started := fetchAutoTopUpConfig_start w in
      (fst started, Normal tt, Some (snd started))
  | Throw e => (w, Throw e, None)
  end.

(** [fetchTransactionHistory], from its call to its await; [r] is the
    [transactionHistory] of the render the callback closes over. *)
Definition fetchTransactionHistory_start
    (r : Credits.TransactionHistory Transaction Time)
    (w : Credits.World number Transaction Time Server)
    : Credits.World number Transaction Time Server
      * Completion (Credits.TransactionHistory Transaction Time) :=
  Credits.call
    (Credits.api_getTransactionHistory api (Credits.next_transaction_time r) 20)
    (Credits.GetTransactionHistory number (Credits.next_transaction_time r) 20)
    w.

(** [fetchTransactionHistory], resumed when the page has arrived. *)
Definition fetchTransactionHistory_settle
    (r : Credits.TransactionHistory Transaction Time)
    (page : Completion (Credits.TransactionHistory Transaction Time))
    : Async.M (Credits.World number Transaction Time Server) unit :=
  response <- Async.await page ;;
  Credits.setTransactionHistory
    {| Credits.transactions :=
         Credits.transactions r ++ Credits.transactions response;
       Credits.next_transaction_time :=
         Credits.next_transaction_time response |}.

End Calls.

End CreditsFlight.

(** *** What stays true of the chat widget in flight *)

Module FlightInvariant.

(** With respect to a transcript [base]: either nothing is in flight,
    the in-flight flag is down and the transcript extends [base]; or one
    call is in flight, the flag is up, and the transcript extends [base]
    by at least the element that call has added. *)
Definition keeps (base : list Otto.Message) (s : Flight.Widget) : Prop :=
  (Flight.pending s = []
   /\ Otto.isProcessing (Otto.view (Flight.world s)) = false
   /\ exists tail,
        Otto.messages (Otto.view (Flight.world s)) = base ++ tail)
  \/ (exists c,
        Flight.pending s = [c]
        /\ Otto.isProcessing (Otto.view (Flight.world s)) = true
        /\ exists tail,
             tail <> []
             /\ Otto.messages (Otto.view (Flight.world s)) = base ++ tail).

(** No press of the graph-data button among the events. *)
Fixpoint no_toggle (events : list Flight.Event) : bool :=
  match events with
  | [] => true
  | Flight.ToggleGraphData :: _ => false
  | _ :: rest => no_toggle rest
  end.

End FlightInvariant.

(** ** Further concrete runs *)

Module Cases.

(** The backend is down behind the proxy. *)
Definition unavailable : Otto.Env :=
  Scenarios.signed_in (fun _ =>
    Normal {| Otto.Response.status := 503;
              Otto.Response.json := Throw Scenarios.failed_to_fetch |}).

(** The network is down. *)
Definition offline : Otto.Env :=
  Scenarios.signed_in (fun _ => Throw Scenarios.failed_to_fetch).

(** The Supabase client has not been created. *)
Definition no_client : Otto.Env :=
  {| Otto.supabase := None;
     Otto.supabase_user := None;
     Otto.flowID := Some [];
     Otto.Date_now := 1739000000001;
     Otto.NEXT_PUBLIC_BACKEND_URL := Some [];
     Otto.fetch := fun _ => Throw Scenarios.failed_to_fetch |}.

(** A backend for the credits hook that accepts no write and no top-up
    request. *)
Definition read_only_api : Credits.AutoGPTServerAPI Z nat nat Scenarios.Ledger :=
  {| Credits.api_getUserCredit :=
       Credits.api_getUserCredit Scenarios.ledger_api;
     Credits.api_getAutoTopUpConfig :=
       Credits.api_getAutoTopUpConfig Scenarios.ledger_api;
     Credits.api_setAutoTopUpConfig := fun _ s =>
       (s, Throw Scenarios.failed_to_fetch);
     Credits.api_requestTopUp := fun _ s =>
       (s, Throw Scenarios.failed_to_fetch);
     Credits.api_getTransactionHistory :=
       Credits.api_getTransactionHistory Scenarios.ledger_api |}.

(** A backend whose reads all fail. *)
Definition write_only_api : Credits.AutoGPTServerAPI Z nat nat Scenarios.Ledger :=
  {| Credits.api_getUserCredit := fun s =>
       (s, Throw Scenarios.failed_to_fetch);
     Credits.api_getAutoTopUpConfig := fun s =>
       (s, Throw Scenarios.failed_to_fetch);
     Credits.api_setAutoTopUpConfig :=
       Credits.api_setAutoTopUpConfig Scenarios.ledger_api;
     Credits.api_requestTopUp :=
       Credits.api_requestTopUp Scenarios.ledger_api;
     Credits.api_getTransactionHistory := fun _ _ s =>
       (s, Throw Scenarios.failed_to_fetch) |}.

Definition fresh_hook : Credits.World Z nat nat Scenarios.Ledger :=
  Credits.initial_world Z nat nat Scenarios.ledger.

Definition loaded_agents : list Onboarding.StoreAgentDetails :=
  AgentStep.load_agents (Normal Scenarios.subtractor) (Normal Scenarios.power)
    AgentStep.initial_agents.

(** Signed in, but the hooks return empty strings: an empty user id, an
    empty flow id and an empty backend URL. *)
Definition nameless : Otto.Env :=
  {| Otto.supabase :=
       Some (Normal (Some {| Otto.access_token := Js.lit "token" |}));
     Otto.supabase_user := Some {| Otto.id := [] |};
     Otto.flowID := Some [];
     Otto.Date_now := 1739000000002;
     Otto.NEXT_PUBLIC_BACKEND_URL := Some [];
     Otto.fetch := fun _ => Throw Scenarios.failed_to_fetch |}.

(** Signed in against a configured backend. *)
Definition hosted : Otto.Env :=
  {| Otto.supabase :=
       Some (Normal (Some {| Otto.access_token := Js.lit "token" |}));
     Otto.supabase_user := Some {| Otto.id := Js.lit "user-1" |};
     Otto.flowID := None;
     Otto.Date_now := 1739000000003;
     Otto.NEXT_PUBLIC_BACKEND_URL := Some (Js.lit "https://backend.example");
     Otto.fetch := fun _ => Throw Scenarios.failed_to_fetch |}.

(** A question is typed, the graph-data button pressed, the question
    submitted and the session found: the request is in flight. *)
Definition request_in_flight : Flight.Widget :=
  Flight.run
    [ Flight.Change (Js.lit "How do I add a block?");
      Flight.ToggleGraphData;
      Flight.Submit Scenarios.answered;
      Flight.Settle 0 ].

(** The same, and the graph-data button pressed again while the
    request is in flight; then the answer arrives. *)
Definition toggled_in_flight : Flight.Widget :=
  fold_left Flight.step
    [ Flight.ToggleGraphData; Flight.Settle 0; Flight.Settle 0 ]
    request_in_flight.

(** Two history calls made from the first render, before either page
    has arrived; then the pages arrive in call order. *)
Definition overlapping_fetches : Credits.World Z nat nat Scenarios.Ledger :=
  let r := Credits.transactionHistory (Credits.hook fresh_hook) in
  let first :=
    CreditsFlight.fetchTransactionHistory_start Scenarios.ledger_api r
      fresh_hook in
  let second :=
    CreditsFlight.fetchTransactionHistory_start Scenarios.ledger_api r
      (fst first) in
  Async.exec (CreditsFlight.fetchTransactionHistory_settle r (snd second))
    (Async.exec (CreditsFlight.fetchTransactionHistory_settle r (snd first))
       (fst second)).

(** updateAutoTopUpConfig(25, 10) at the moment it returns, against the
    backend that clamps the threshold: the store, the completion, and the
    read that is still pending. *)
Definition update_returned
    : Credits.World Z nat nat Scenarios.Ledger * Completion unit
      * option (Completion (Credits.AutoTopUpConfig Z)) :=
  let started :=
    CreditsFlight.updateAutoTopUpConfig_start Scenarios.ledger_api 25%Z 10%Z
      fresh_hook in
  CreditsFlight.updateAutoTopUpConfig_return Scenarios.ledger_api
    (snd started) (fst started).

End Cases.

(** * Properties *)

(** ** Facts about the JavaScript primitives *)

Lemma Js_eqb_eq (a b : Js.str) : Js.eqb a b = true <-> a = b.
Proof.
  revert b; induction a as [|x a IH]; intros [|y b]; simpl;
    try (split; discriminate); try tauto.
  rewrite andb_true_iff, N.eqb_eq, IH.
  split; [intros [-> ->]; reflexivity | intros H; inversion H; auto].
Qed.

Lemma Js_trimStart_whitespace (s : Js.str) :
  forallb Js.is_whitespace s = true -> Js.trimStart s = [].
Proof.
  induction s as [|c s IH]; simpl; [reflexivity|].
  intros H; apply andb_true_iff in H as [Hc Hs].
  rewrite Hc; auto.
Qed.

Lemma Js_trim_whitespace (s : Js.str) :
  forallb Js.is_whitespace s = true -> Js.trim s = [].
Proof.
  intros H; unfold Js.trim; rewrite (Js_trimStart_whitespace s H); reflexivity.
Qed.

Lemma Js_slice_drop_last (A : Type) (arr : list A) :
  Js.slice arr 0 (-1) = removelast arr.
Proof.
  unfold Js.slice, Js.clamp_index.
  change (0 <? 0)%Z with false; change (-1 <? 0)%Z with true; cbv iota.
  rewrite removelast_firstn_len.
  replace (Z.to_nat (Z.min 0 (Z.of_nat (length arr)))) with 0 by lia.
  rewrite skipn_0; f_equal; lia.
Qed.

Lemma Js_slice_drop_last_app (A : Type) (arr : list A) (x : A) :
  Js.slice (arr ++ [x]) 0 (-1) = arr.
Proof. rewrite Js_slice_drop_last; apply removelast_last. Qed.

(** ** The conversation-history pairing *)

Lemma reduce_pairing_step (pre rest : list Otto.Message) (acc : list Otto.Turn) :
  Js.reduce_from Otto.pairing_step (pre ++ rest) (length pre) rest acc
  = acc ++ Otto.paired_turns rest.
Proof.
  revert pre acc; induction rest as [|x rest IH]; intros pre acc; simpl.
  - symmetry; apply app_nil_r.
  - replace (pre ++ x :: rest) with ((pre ++ [x]) ++ rest)
      by (rewrite <- app_assoc; reflexivity).
    replace (S (length pre)) with (length (pre ++ [x]))
      by (rewrite length_app; simpl; lia).
    rewrite IH; clear IH.
    unfold Otto.pairing_step.
    rewrite nth_error_app2 by (rewrite length_app; simpl; lia).
    replace (length pre + 1 - length (pre ++ [x])) with 0
      by (rewrite length_app; simpl; lia).
    destruct rest as [|n rest]; simpl; [reflexivity|].
    replace (length pre + 1 <? length ((pre ++ [x]) ++ n :: rest)) with true
      by (symmetry; apply Nat.ltb_lt; rewrite !length_app; simpl; lia).
    rewrite andb_true_r.
    destruct (Otto.is_user x && Otto.is_assistant n); [|reflexivity].
    rewrite <- app_assoc; reflexivity.
Qed.

Lemma conversation_history_paired_turns (transcript : list Otto.Message) :
  Otto.conversation_history transcript = Otto.paired_turns transcript.
Proof.
  unfold Otto.conversation_history, Js.reduce.
  apply (reduce_pairing_step [] transcript []).
Qed.

Lemma is_user_inv (m : Otto.Message) :
  Otto.is_user m = true ->
  m = {| Otto.type := Otto.user; Otto.content := Otto.content m |}.
Proof. destruct m as [[|] c]; simpl; [reflexivity | discriminate]. Qed.

Lemma is_assistant_inv (m : Otto.Message) :
  Otto.is_assistant m = true ->
  m = {| Otto.type := Otto.assistant; Otto.content := Otto.content m |}.
Proof. destruct m as [[|] c]; simpl; [discriminate | reflexivity]. Qed.

Lemma paired_turns_In (transcript : list Otto.Message) (q r : Js.str) :
  In {| Otto.query := q; Otto.response := r |} (Otto.paired_turns transcript)
  <-> exists i,
        nth_error transcript i
          = Some {| Otto.type := Otto.user; Otto.content := q |}
        /\ nth_error transcript (S i)
          = Some {| Otto.type := Otto.assistant; Otto.content := r |}.
Proof.
  induction transcript as [|m rest IH].
  - simpl; split; [tauto | intros [[|i] [H _]]; discriminate].
  - destruct rest as [|n rest'].
    + simpl; split; [tauto|].
      intros [[|[|i]] [H1 H2]]; simpl in *; discriminate.
    + change (Otto.paired_turns (m :: n :: rest')) with
        (if Otto.is_user m && Otto.is_assistant n
         then {| Otto.query := Otto.content m; Otto.response := Otto.content n |}
                :: Otto.paired_turns (n :: rest')
         else Otto.paired_turns (n :: rest')).
      split.
      * intros H.
        assert (Hcases :
          (Otto.is_user m && Otto.is_assistant n = true
           /\ Otto.content m = q /\ Otto.content n = r)
          \/ In {| Otto.query := q; Otto.response := r |}
               (Otto.paired_turns (n :: rest'))).
        { destruct (Otto.is_user m && Otto.is_assistant n); [|right; exact H].
          destruct H as [H|H]; [left | right; exact H].
          inversion H; auto. }
        destruct Hcases as [[Hc [Hq Hr]]|Hin].
        -- apply andb_true_iff in Hc as [Hu Ha].
           exists 0; simpl; subst q r.
           rewrite <- (is_user_inv m Hu), <- (is_assistant_inv n Ha); auto.
        -- apply IH in Hin as [i [H1 H2]].
           exists (S i); auto.
      * intros [[|i] [H1 H2]].
        -- simpl in H1, H2; inversion H1; inversion H2; subst m n; simpl.
           left; reflexivity.
        -- assert (Hin : In {| Otto.query := q; Otto.response := r |}
                           (Otto.paired_turns (n :: rest')))
             by (apply IH; exists i; auto).
           destruct (Otto.is_user m && Otto.is_assistant n);
             [right; exact Hin | exact Hin].
Qed.

Lemma paired_turns_trailing_user (transcript : list Otto.Message) (x : Js.str) :
  Otto.paired_turns
    (transcript ++ [ {| Otto.type := Otto.user; Otto.content := x |} ])
  = Otto.paired_turns transcript.
Proof.
  induction transcript as [|m rest IH]; [reflexivity|].
  destruct rest as [|n rest'].
  - simpl; rewrite andb_false_r; reflexivity.
  - change ((m :: n :: rest') ++ [ {| Otto.type := Otto.user; Otto.content := x |} ])
      with (m :: ((n :: rest')
                    ++ [ {| Otto.type := Otto.user; Otto.content := x |} ])).
    change (Otto.paired_turns (m :: n :: rest')) with
      (if Otto.is_user m && Otto.is_assistant n
       then {| Otto.query := Otto.content m; Otto.response := Otto.content n |}
              :: Otto.paired_turns (n :: rest')
       else Otto.paired_turns (n :: rest')).
    rewrite <- IH; reflexivity.
Qed.

(** C3. The conversation history computed by the submit handler pairs
    each user message with the assistant message that immediately
    follows it, in transcript order, and skips a user message that is not
    immediately followed by an assistant message.  In particular the
    transcript [user A, assistant B, user C, assistant D] yields
    [{query A, response B}, {query C, response D}], and a trailing
    unanswered user message adds no pair. *)
Theorem C3_conversation_history_pairing :
  (forall transcript,
     Otto.conversation_history transcript = Otto.paired_turns transcript)
  /\ (forall transcript q r,
        In {| Otto.query := q; Otto.response := r |}
           (Otto.conversation_history transcript)
        <-> exists i,
              nth_error transcript i
                = Some {| Otto.type := Otto.user; Otto.content := q |}
              /\ nth_error transcript (S i)
                = Some {| Otto.type := Otto.assistant; Otto.content := r |})
  /\ (forall A B C D,
        Otto.conversation_history
          [ {| Otto.type := Otto.user; Otto.content := A |};
            {| Otto.type := Otto.assistant; Otto.content := B |};
            {| Otto.type := Otto.user; Otto.content := C |};
            {| Otto.type := Otto.assistant; Otto.content := D |} ]
        = [ {| Otto.query := A; Otto.response := B |};
            {| Otto.query := C; Otto.response := D |} ])
  /\ (forall transcript x,
        Otto.conversation_history
          (transcript ++ [ {| Otto.type := Otto.user; Otto.content := x |} ])
        = Otto.conversation_history transcript).
Proof.
  split; [exact conversation_history_paired_turns|].
  split; [intros t q r; rewrite conversation_history_paired_turns;
          apply paired_turns_In|].
  split; [intros A B C D; reflexivity|].
  intros t x; rewrite !conversation_history_paired_turns.
  apply paired_turns_trailing_user.
Qed.

(** ** Symbolic execution of a handler

    The store is pushed through the binds one statement at a time. *)

Section AsyncFacts.

Variables W A B C : Type.

Lemma run_modify (f : W -> W) (w : W) :
  Async.modify f w = (f w, Normal tt).
Proof. reflexivity. Qed.

Lemma run_ret (a : A) (w : W) : Async.ret a w = (w, Normal a).
Proof. reflexivity. Qed.

Lemma run_throw (e : JsError) (w : W) :
  @Async.throw W A e w = (w, Throw e).
Proof. reflexivity. Qed.

Lemma run_await (p : Completion A) (w : W) : Async.await p w = (w, p).
Proof. reflexivity. Qed.

Lemma bind_modify (f : W -> W) (k : unit -> Async.M W B) (w : W) :
  Async.bind (Async.modify f) k w = k tt (f w).
Proof. reflexivity. Qed.

Lemma bind_ret (a : A) (k : A -> Async.M W B) (w : W) :
  Async.bind (Async.ret a) k w = k a w.
Proof. reflexivity. Qed.

Lemma bind_throw (e : JsError) (k : A -> Async.M W B) (w : W) :
  Async.bind (Async.throw e) k w = (w, Throw e).
Proof. reflexivity. Qed.

Lemma bind_await_normal (a : A) (k : A -> Async.M W B) (w : W) :
  Async.bind (Async.await (Normal a)) k w = k a w.
Proof. reflexivity. Qed.

Lemma bind_await_throw (e : JsError) (k : A -> Async.M W B) (w : W) :
  Async.bind (Async.await (Throw e)) k w = (w, Throw e).
Proof. reflexivity. Qed.

Lemma bind_assoc (m : Async.M W A) (k1 : A -> Async.M W B)
    (k2 : B -> Async.M W C) (w : W) :
  Async.bind (Async.bind m k1) k2 w
  = Async.bind m (fun a => Async.bind (k1 a) k2) w.
Proof. unfold Async.bind; destruct (m w) as [w' [a|e]]; reflexivity. Qed.

Lemma try_catch_run (body : Async.M W A) (handler : JsError -> Async.M W A)
    (w : W) :
  Async.try_catch body handler w
  = match body w with
    | (w', Normal a) => (w', Normal a)
    | (w', Throw e) => handler e w'
    end.
Proof. reflexivity. Qed.

Lemma finally_modify (m : Async.M W A) (g : W -> W) (w : W) :
  Async.finally m (Async.modify g) w = (g (fst (m w)), snd (m w)).
Proof. reflexivity. Qed.

End AsyncFacts.

Ltac exec_step :=
  first
    [ rewrite bind_assoc | rewrite bind_modify | rewrite bind_ret
    | rewrite bind_throw | rewrite bind_await_normal
    | rewrite bind_await_throw | rewrite finally_modify
    | rewrite try_catch_run | rewrite run_modify | rewrite run_ret
    | rewrite run_throw | rewrite run_await
    | match goal with
      | H : Otto.supabase _ = _ |- _ => rewrite H
      | H : Otto.fetch _ _ = _ |- _ => rewrite H
      | H : Otto.Response.ok _ = _ |- _ => rewrite H
      | H : N.eqb (Otto.Response.status _) _ = _ |- _ => rewrite H
      | H : Otto.Response.json _ = _ |- _ => rewrite H
      | H : orb _ _ = _ |- _ => rewrite H
      end ].

Ltac exec_handler :=
  unfold Otto.submit, Async.exec, Otto.handleSubmit;
  unfold Async.try_catch_finally, Otto.await_fetch, Otto.preventDefault,
    Otto.toast, Otto.console_error, Otto.setMessages, Otto.setInputValue,
    Otto.setIsProcessing, Otto.setIncludeGraphData;
  cbv beta iota zeta;
  repeat (exec_step; cbv beta iota zeta; cbn [negb]);
  cbn [fst snd Otto.with_view Otto.value
       Otto.view Otto.messages Otto.requests Otto.toasts
       Otto.console_errors Otto.isProcessing Otto.includeGraphData
       Otto.inputValue Otto.isOpen Otto.defaultPrevented].

(** The store a submission ends with, computed once and substituted. *)
Ltac run_submit env w :=
  let E := fresh "E" in
  eassert (E : Otto.submit env w = _) by (exec_handler; reflexivity);
  rewrite E; clear E;
  cbn [fst snd Otto.with_view Otto.value Otto.view Otto.messages Otto.requests Otto.toasts
       Otto.console_errors Otto.isProcessing Otto.includeGraphData
       Otto.inputValue Otto.isOpen Otto.defaultPrevented].

(** The paths of a submission that has passed the guard. *)
Ltac submit_paths env w :=
  destruct (Otto.supabase env) as [[[?session|]|?e]|] eqn:?Hs;
  [ match goal with
    | session : Otto.Session |- _ =>
        destruct (Otto.fetch env
                    (Otto.ask_request env session
                       (Otto.ask_payload env (Otto.view w)
                          (Js.trim (Otto.inputValue (Otto.view w))))))
          as [?resp|?e] eqn:?Hf
    end;
    [ match goal with
      | resp : Otto.Response.t |- _ =>
          destruct (Otto.Response.ok resp) eqn:?Hok;
          [ destruct (Otto.Response.json resp) as [?data|?e] eqn:?Hj
          | destruct (N.eqb (Otto.Response.status resp) 401) eqn:?H401 ]
      end
    | ]
  | | | ].

Ltac tidy_transcript :=
  repeat rewrite Js_slice_drop_last_app;
  repeat rewrite <- app_assoc;
  try reflexivity.

(** ** The submit handler of the chat widget, path by path *)

Lemma guard_blocks (v : Otto.WidgetState) :
  forallb Js.is_whitespace (Otto.inputValue v) = true
  \/ Otto.isProcessing v = true ->
  Js.falsy (Js.trim (Otto.inputValue v)) || Otto.isProcessing v = true.
Proof.
  intros [H|H].
  - rewrite (Js_trim_whitespace _ H); reflexivity.
  - rewrite H; apply orb_true_r.
Qed.

Lemma unauthorized_not_ok (resp : Otto.Response.t) :
  Otto.Response.status resp = 401%N ->
  Otto.Response.ok resp = false
  /\ (Otto.Response.status resp =? 401)%N = true.
Proof. unfold Otto.Response.ok; intros ->; split; reflexivity. Qed.

Lemma submit_blocked (env : Otto.Env) (w : Otto.World) :
  Js.falsy (Js.trim (Otto.inputValue (Otto.view w)))
    || Otto.isProcessing (Otto.view w) = true ->
  Otto.submit env w = Async.exec Otto.preventDefault w.
Proof. intros Hg; exec_handler; reflexivity. Qed.

Lemma submit_no_session (env : Otto.Env) (w : Otto.World) :
  Js.falsy (Js.trim (Otto.inputValue (Otto.view w)))
    || Otto.isProcessing (Otto.view w) = false ->
  Otto.supabase env = Some (Normal None) ->
  Otto.messages (Otto.view (Otto.submit env w))
  = Otto.messages (Otto.view w)
      ++ [ {| Otto.type := Otto.assistant; Otto.content := Otto.sign_in_text |} ]
  /\ Otto.console_errors (Otto.submit env w)
     = Otto.console_errors w ++ [new_Error "No active session"]
  /\ Otto.requests (Otto.submit env w) = Otto.requests w
  /\ Otto.includeGraphData (Otto.view (Otto.submit env w))
     = Otto.includeGraphData (Otto.view w).
Proof.
  intros Hg Hs; run_submit env w.
  repeat split; tidy_transcript.
Qed.

Lemma submit_unauthorized (env : Otto.Env) (w : Otto.World)
    (session : Otto.Session) (resp : Otto.Response.t) :
  Js.falsy (Js.trim (Otto.inputValue (Otto.view w)))
    || Otto.isProcessing (Otto.view w) = false ->
  Otto.supabase env = Some (Normal (Some session)) ->
  Otto.fetch env
    (Otto.ask_request env session
       (Otto.ask_payload env (Otto.view w)
          (Js.trim (Otto.inputValue (Otto.view w)))))
  = Normal resp ->
  Otto.Response.status resp = 401%N ->
  Otto.messages (Otto.view (Otto.submit env w))
  = Otto.messages (Otto.view w)
      ++ [ {| Otto.type := Otto.user;
              Otto.content := Js.trim (Otto.inputValue (Otto.view w)) |};
           {| Otto.type := Otto.assistant; Otto.content := Otto.retry_text |} ]
  /\ Otto.toasts (Otto.submit env w)
     = Otto.toasts w ++ [Otto.authentication_toast]
  /\ Otto.console_errors (Otto.submit env w)
     = Otto.console_errors w ++ [new_Error "Authentication required"].
Proof.
  intros Hg Hs Hf H401.
  destruct (unauthorized_not_ok resp H401) as [Hok Heq].
  run_submit env w.
  repeat split; tidy_transcript.
Qed.

(** Whatever happens, a call only appends to the transcript it finds. *)
Lemma submit_appends (env : Otto.Env) (w : Otto.World) :
  exists tail,
    Otto.messages (Otto.view (Otto.submit env w))
    = Otto.messages (Otto.view w) ++ tail.
Proof.
  destruct (Js.falsy (Js.trim (Otto.inputValue (Otto.view w)))
            || Otto.isProcessing (Otto.view w)) eqn:Hg.
  { rewrite (submit_blocked env w Hg); exists []; symmetry; apply app_nil_r. }
  submit_paths env w; run_submit env w; eexists; tidy_transcript.
Qed.

(** A call that passes the guard ends with the in-flight flag down and
    lets no error escape. *)
Lemma submit_settles (env : Otto.Env) (w : Otto.World) :
  Js.falsy (Js.trim (Otto.inputValue (Otto.view w)))
    || Otto.isProcessing (Otto.view w) = false ->
  Otto.isProcessing (Otto.view (Otto.submit env w)) = false
  /\ snd (Otto.handleSubmit env (Otto.view w) w) = Normal tt.
Proof.
  intros Hg.
  submit_paths env w; (split; [run_submit env w | exec_handler]); reflexivity.
Qed.

(** Once a session is found the graph-data flag is cleared, whatever
    the backend does. *)
Lemma submit_clears_flag (env : Otto.Env) (w : Otto.World)
    (session : Otto.Session) :
  Js.falsy (Js.trim (Otto.inputValue (Otto.view w)))
    || Otto.isProcessing (Otto.view w) = false ->
  Otto.supabase env = Some (Normal (Some session)) ->
  Otto.includeGraphData (Otto.view (Otto.submit env w)) = false.
Proof.
  intros Hg Hs'.
  submit_paths env w; try discriminate;
    run_submit env w; reflexivity.
Qed.

(** Before a session is found the flag is not touched. *)
Lemma submit_keeps_flag (env : Otto.Env) (w : Otto.World) :
  Js.falsy (Js.trim (Otto.inputValue (Otto.view w)))
    || Otto.isProcessing (Otto.view w) = true
  \/ Otto.supabase env = None
  \/ (exists e, Otto.supabase env = Some (Throw e))
  \/ Otto.supabase env = Some (Normal None) ->
  Otto.includeGraphData (Otto.view (Otto.submit env w))
  = Otto.includeGraphData (Otto.view w).
Proof.
  intros H.
  destruct (Js.falsy (Js.trim (Otto.inputValue (Otto.view w)))
            || Otto.isProcessing (Otto.view w)) eqn:Hg.
  { rewrite (submit_blocked env w Hg); reflexivity. }
  destruct H as [H|[H|[[e H]|H]]]; [discriminate| | |];
    run_submit env w; reflexivity.
Qed.

(** ** Claims about the chat widget *)

(** C1. When the ask-call comes back with status 401, the handler shows
    the authentication toast and throws an error whose message is
    "Authentication required"; the catch block recognises only "No active
    session", so the placeholder is replaced by the retry text and not by
    the sign-in text. *)
Theorem C1_unauthorized_gets_retry_text (env : Otto.Env) (w : Otto.World)
    (session : Otto.Session) (resp : Otto.Response.t) :
  Js.falsy (Js.trim (Otto.inputValue (Otto.view w))) = false ->
  Otto.isProcessing (Otto.view w) = false ->
  Otto.supabase env = Some (Normal (Some session)) ->
  Otto.fetch env
    (Otto.ask_request env session
       (Otto.ask_payload env (Otto.view w)
          (Js.trim (Otto.inputValue (Otto.view w)))))
  = Normal resp ->
  Otto.Response.status resp = 401%N ->
  Otto.messages (Otto.view (Otto.submit env w))
  = Otto.messages (Otto.view w)
      ++ [ {| Otto.type := Otto.user;
              Otto.content := Js.trim (Otto.inputValue (Otto.view w)) |};
           {| Otto.type := Otto.assistant; Otto.content := Otto.retry_text |} ]
  /\ Otto.retry_text <> Otto.sign_in_text
  /\ Otto.toasts (Otto.submit env w)
     = Otto.toasts w ++ [Otto.authentication_toast].
Proof.
  intros Ht Hp Hs Hf H401.
  assert (Hg : Js.falsy (Js.trim (Otto.inputValue (Otto.view w)))
               || Otto.isProcessing (Otto.view w) = false)
    by (rewrite Ht, Hp; reflexivity).
  destruct (submit_unauthorized env w Hg Hs Hf H401) as [Hm [Hts _]].
  repeat split; [exact Hm | discriminate | exact Hts].
Qed.

Lemma C1_unauthorized_run :
  Otto.messages
    (Otto.view (Otto.submit Scenarios.unauthorized Scenarios.asking))
  = [ Otto.welcome_message;
      {| Otto.type := Otto.user;
         Otto.content := Js.lit "How do I add a block?" |};
      {| Otto.type := Otto.assistant; Otto.content := Otto.retry_text |} ].
Proof.
  exact (proj1 (C1_unauthorized_gets_retry_text
                  Scenarios.unauthorized Scenarios.asking
                  eq_refl eq_refl eq_refl eq_refl eq_refl)).
Defined.

(** C5. When the session lookup returns no session, the handler throws
    "No active session" before the placeholder is appended; the catch
    block then drops the last transcript element, which is the user's own
    message, and appends the sign-in text.  No request is sent. *)
Theorem C5_missing_session_drops_question (env : Otto.Env) (w : Otto.World) :
  Js.falsy (Js.trim (Otto.inputValue (Otto.view w))) = false ->
  Otto.isProcessing (Otto.view w) = false ->
  Otto.supabase env = Some (Normal None) ->
  Otto.messages (Otto.view (Otto.submit env w))
  = Otto.messages (Otto.view w)
      ++ [ {| Otto.type := Otto.assistant; Otto.content := Otto.sign_in_text |} ]
  /\ Otto.console_errors (Otto.submit env w)
     = Otto.console_errors w ++ [new_Error "No active session"]
  /\ Otto.requests (Otto.submit env w) = Otto.requests w.
Proof.
  intros Ht Hp Hs.
  assert (Hg : Js.falsy (Js.trim (Otto.inputValue (Otto.view w)))
               || Otto.isProcessing (Otto.view w) = false)
    by (rewrite Ht, Hp; reflexivity).
  destruct (submit_no_session env w Hg Hs) as [Hm [Hc [Hr _]]].
  auto.
Qed.

Lemma C5_missing_session_run :
  Otto.messages
    (Otto.view (Otto.submit Scenarios.signed_out Scenarios.asking))
  = [ Otto.welcome_message;
      {| Otto.type := Otto.assistant; Otto.content := Otto.sign_in_text |} ].
Proof.
  exact (proj1 (C5_missing_session_drops_question
                  Scenarios.signed_out Scenarios.asking
                  eq_refl eq_refl eq_refl)).
Defined.

(** C6, as stated, fails: with nobody signed in, a submission made with
    the graph-data flag up ends with the flag still up. *)
Lemma C6_flag_survives_missing_session :
  Otto.includeGraphData (Otto.view Scenarios.asking) = true
  /\ Otto.includeGraphData
       (Otto.view (Otto.submit Scenarios.signed_out Scenarios.asking)) = true
  /\ ~ (forall env w,
          Otto.includeGraphData (Otto.view (Otto.submit env w)) = false).
Proof.
  split; [reflexivity|]; split; [reflexivity|].
  intros H.
  specialize (H Scenarios.signed_out Scenarios.asking); discriminate H.
Qed.

(** C7. A submission whose input is empty or consists of white space
    only, and a submission made while a request is in flight, leave the
    view state as it is: the transcript gets neither a user message nor a
    placeholder, and no request is sent. *)
Theorem C7_blank_or_busy_submit_ignored (env : Otto.Env) (w : Otto.World) :
  forallb Js.is_whitespace (Otto.inputValue (Otto.view w)) = true
  \/ Otto.isProcessing (Otto.view w) = true ->
  Otto.messages (Otto.view (Otto.submit env w)) = Otto.messages (Otto.view w)
  /\ Otto.view (Otto.submit env w) = Otto.view w
  /\ Otto.requests (Otto.submit env w) = Otto.requests w.
Proof.
  intros H.
  rewrite (submit_blocked env w (guard_blocks _ H)).
  repeat split.
Qed.

Lemma C7_ignored_runs :
  Otto.messages (Otto.view (Otto.submit Scenarios.answered Scenarios.blank))
  = [Otto.welcome_message]
  /\ Otto.messages (Otto.view (Otto.submit Scenarios.answered Scenarios.busy))
     = [Otto.welcome_message].
Proof.
  split.
  - exact (proj1 (C7_blank_or_busy_submit_ignored
                    Scenarios.answered Scenarios.blank (or_introl eq_refl))).
  - exact (proj1 (C7_blank_or_busy_submit_ignored
                    Scenarios.answered Scenarios.busy (or_intror eq_refl))).
Defined.

(** ** The welcome message *)

Lemma dispatch_appends (w : Otto.World) (ev : Otto.Event) :
  exists tail,
    Otto.messages (Otto.view (Otto.dispatch w ev))
    = Otto.messages (Otto.view w) ++ tail.
Proof.
  destruct ev as [env|text| | |]; simpl.
  - apply submit_appends.
  - exists []; symmetry; apply app_nil_r.
  - exists []; symmetry; apply app_nil_r.
  - exists []; symmetry; apply app_nil_r.
  - exists []; symmetry; apply app_nil_r.
Qed.

Lemma events_append (events : list Otto.Event) (w : Otto.World) :
  exists tail,
    Otto.messages (Otto.view (fold_left Otto.dispatch events w))
    = Otto.messages (Otto.view w) ++ tail.
Proof.
  revert w; induction events as [|ev events IH]; intros w; simpl.
  - exists []; symmetry; apply app_nil_r.
  - destruct (IH (Otto.dispatch w ev)) as [t2 H2].
    destruct (dispatch_appends w ev) as [t1 H1].
    exists (t1 ++ t2); rewrite H2, H1, app_assoc; reflexivity.
Qed.

(** C10. Mounting the widget, whose transcript starts empty, leaves
    exactly one message in it, the assistant-typed welcome message; and
    after any sequence of later events the transcript still begins with
    that message, so it is never empty and its first element is
    assistant-typed. *)
Theorem C10_welcome_message_stays_first :
  Otto.messages Otto.initial_state = []
  /\ Otto.messages (Otto.view Otto.mounted) = [Otto.welcome_message]
  /\ Otto.type Otto.welcome_message = Otto.assistant
  /\ (forall events,
        exists rest,
          Otto.messages (Otto.view (Otto.run events))
          = Otto.welcome_message :: rest)
  /\ (forall events,
        Otto.messages (Otto.view (Otto.run events)) <> []
        /\ option_map Otto.type (hd_error (Otto.messages (Otto.view (Otto.run events))))
           = Some Otto.assistant).
Proof.
  split; [reflexivity|]; split; [reflexivity|]; split; [reflexivity|].
  assert (H : forall events, exists rest,
            Otto.messages (Otto.view (Otto.run events))
            = Otto.welcome_message :: rest).
  { intros events; destruct (events_append events Otto.mounted) as [tail H].
    exists tail; exact H. }
  split; [exact H|].
  intros events; destruct (H events) as [rest ->].
  split; [discriminate | reflexivity].
Qed.

(** ** The credits hook *)

Lemma last_cons_default (A : Type) (l : list A) (a d : A) :
  last (a :: l) d = last l a.
Proof.
  revert a d; induction l as [|b l IH]; intros a d; [reflexivity|].
  change (last (a :: b :: l) d) with (last (b :: l) d).
  rewrite (IH b d), (IH b a); reflexivity.
Qed.

Lemma length_concat_sum (A B : Type) (f : B -> list A) (l : list B) :
  length (concat (map f l)) = list_sum (map (fun b => length (f b)) l).
Proof.
  induction l as [|b l IH]; simpl; [reflexivity|].
  rewrite length_app, IH; reflexivity.
Qed.

Section CreditsFacts.

Variables number Transaction Time Server : Type.
Variable api : Credits.AutoGPTServerAPI number Transaction Time Server.

(** One call from the current render, when its page arrives. *)
Lemma fetch_now_resolved (w w' : Credits.World number Transaction Time Server) :
  Credits.fetchTransactionHistory_now api w = (w', Normal tt) ->
  exists page,
    Credits.calls w'
    = Credits.calls w
        ++ [Credits.GetTransactionHistory number
              (Credits.next_transaction_time
                 (Credits.transactionHistory (Credits.hook w)))
              20 (Normal page)]
    /\ Credits.transactions (Credits.transactionHistory (Credits.hook w'))
       = Credits.transactions (Credits.transactionHistory (Credits.hook w))
           ++ Credits.transactions page
    /\ Credits.next_transaction_time
         (Credits.transactionHistory (Credits.hook w'))
       = Credits.next_transaction_time page.
Proof.
  unfold Credits.fetchTransactionHistory_now, Credits.fetchTransactionHistory,
    Credits.call, Credits.setTransactionHistory, Async.bind, Async.modify.
  destruct (Credits.api_getTransactionHistory api _ _ _) as [s' [page|e]];
    intros H; inversion H; subst w'; clear H.
  exists page; repeat split.
Qed.

(** [n] calls in a row, from any state of the hook. *)
Lemma fetches_resolved (n : nat)
    (w w' : Credits.World number Transaction Time Server) :
  Credits.fetches api n w = (w', Normal tt) ->
  exists pages,
    length pages = n
    /\ Credits.pages_of (Credits.calls w')
       = Credits.pages_of (Credits.calls w) ++ pages
    /\ Credits.history_requests (Credits.calls w')
       = Credits.history_requests (Credits.calls w)
           ++ map (fun cursor => (cursor, 20%N))
                (removelast
                   (Credits.next_transaction_time
                      (Credits.transactionHistory (Credits.hook w))
                    :: map (@Credits.next_transaction_time _ _) pages))
    /\ Credits.transactions (Credits.transactionHistory (Credits.hook w'))
       = Credits.transactions (Credits.transactionHistory (Credits.hook w))
           ++ concat (map (@Credits.transactions _ _) pages)
    /\ Credits.next_transaction_time
         (Credits.transactionHistory (Credits.hook w'))
       = last (map (@Credits.next_transaction_time _ _) pages)
           (Credits.next_transaction_time
              (Credits.transactionHistory (Credits.hook w))).
Proof.
  revert w; induction n as [|n IH]; intros w; simpl.
  - unfold Async.ret; intros H; inversion H; subst w'.
    exists []; simpl; rewrite !app_nil_r; auto.
  - unfold Async.bind at 1.
    destruct (Credits.fetchTransactionHistory_now api w) as [w1 [[]|e]] eqn:H1;
      [|discriminate].
    intros H2.
    destruct (fetch_now_resolved w H1) as [page [Hc [Ht Hn]]].
    destruct (IH w1 H2) as [pages [Hl [Hp [Hr [Htx Hcur]]]]].
    exists (page :: pages).
    split; [simpl; congruence|].
    split.
    { rewrite Hp, Hc; unfold Credits.pages_of; rewrite flat_map_app; simpl.
      rewrite <- app_assoc; reflexivity. }
    split.
    { rewrite Hr, Hc; unfold Credits.history_requests.
      rewrite flat_map_app; simpl.
      rewrite <- app_assoc, Hn; reflexivity. }
    split.
    { rewrite Htx, Ht; simpl; rewrite <- app_assoc; reflexivity. }
    rewrite Hcur, Hn; simpl map; rewrite last_cons_default; reflexivity.
Qed.

End CreditsFacts.

(** C2. Starting from the empty history, let [n] calls of
    fetchTransactionHistory be made one after the other, each from the
    render that follows the previous one, and let all of them succeed.
    Then each call asked for 20 entries at the cursor the hook held at
    that moment (null first, then the cursor of the page before), the
    accumulated transactions are the pages in arrival order, their number
    is the sum of the page sizes, and the cursor held at the end is the
    one of the last page: it is null exactly when the most recent fetch
    returned a null cursor. *)
Theorem C2_history_accumulates_pages
    (number Transaction Time Server : Type)
    (api : Credits.AutoGPTServerAPI number Transaction Time Server)
    (s : Server) (n : nat)
    (w : Credits.World number Transaction Time Server) :
  Credits.fetches api n (Credits.initial_world number Transaction Time s)
  = (w, Normal tt) ->
  let pages := Credits.pages_of (Credits.calls w) in
  let history := Credits.transactionHistory (Credits.hook w) in
  let cursors := map (@Credits.next_transaction_time _ _) pages in
  length pages = n
  /\ Credits.history_requests (Credits.calls w)
     = map (fun cursor => (cursor, 20%N)) (removelast (None :: cursors))
  /\ Credits.transactions history
     = concat (map (@Credits.transactions _ _) pages)
  /\ length (Credits.transactions history)
     = list_sum (map (fun page => length (Credits.transactions page)) pages)
  /\ Credits.next_transaction_time history = last cursors None
  /\ (forall earlier recent,
        pages = earlier ++ [recent] ->
        (Credits.next_transaction_time history = None
         <-> Credits.next_transaction_time recent = None)).
Proof.
  intros H pages history cursors.
  destruct (fetches_resolved api n _ H) as [ps [Hl [Hp [Hr [Htx Hcur]]]]].
  simpl in Hp, Hr, Htx, Hcur.
  assert (Hps : pages = ps) by exact Hp.
  subst cursors; rewrite Hps.
  assert (Hall : Credits.transactions history
                 = concat (map (@Credits.transactions _ _) ps)) by exact Htx.
  split; [exact Hl|].
  split; [exact Hr|].
  split; [exact Hall|].
  split; [rewrite Hall; apply length_concat_sum|].
  split; [exact Hcur|].
  intros earlier recent Hsplit.
  unfold history; rewrite Hcur, Hsplit, map_app; simpl map.
  rewrite last_last; reflexivity.
Qed.

Lemma C2_two_pages_run :
  Credits.transactions
    (Credits.transactionHistory (Credits.hook Scenarios.after_two_fetches))
  = [50; 40; 30; 20]
  /\ Credits.history_requests (Credits.calls Scenarios.after_two_fetches)
     = [(None, 20%N); (Some 30, 20%N)]
  /\ Credits.next_transaction_time
       (Credits.transactionHistory (Credits.hook Scenarios.after_two_fetches))
     = None.
Proof.
  pose proof (C2_history_accumulates_pages
                Scenarios.ledger_api Scenarios.ledger 2
                (w := Scenarios.after_two_fetches) eq_refl)
    as [_ [Hr [Ht [_ [Hc _]]]]].
  split; [exact Ht|]; split; [exact Hr | exact Hc].
Defined.

(** ** The onboarding step *)

Lemma onClick_loaded (Other : Type) (agents : list Onboarding.StoreAgentDetails)
    (i : nat) (agent : Onboarding.StoreAgentDetails)
    (state : Onboarding.OnboardingState Other) :
  nth_error agents i = Some agent ->
  Onboarding.onClick agents i state
  = ({| Onboarding.selectedAgentSlug := Some (Onboarding.slug agent);
        Onboarding.selectedAgentCreator := Some (Onboarding.creator agent);
        Onboarding.other_steps := Onboarding.other_steps state |}, Normal tt).
Proof.
  intros H; unfold Onboarding.onClick; rewrite H; reflexivity.
Qed.

(** C8. With both cards loaded, a click on the second card followed by a
    click on the first leaves the slug and the creator of the first card
    in the wizard state, and nothing of the second: the state is the one
    a single click on the first card gives, the first card shows as
    selected, and what the other steps stored is untouched. *)
Theorem C8_last_selection_wins (Other : Type)
    (agents : list Onboarding.StoreAgentDetails)
    (first second : Onboarding.StoreAgentDetails)
    (state : Onboarding.OnboardingState Other) :
  nth_error agents 0 = Some first ->
  nth_error agents 1 = Some second ->
  let after_second := Async.exec (Onboarding.onClick agents 1) state in
  let after_first :=
    Async.exec (Onboarding.onClick agents 0) after_second in
  Onboarding.selectedAgentSlug after_second = Some (Onboarding.slug second)
  /\ Onboarding.selectedAgentCreator after_second
     = Some (Onboarding.creator second)
  /\ Onboarding.selectedAgentSlug after_first = Some (Onboarding.slug first)
  /\ Onboarding.selectedAgentCreator after_first
     = Some (Onboarding.creator first)
  /\ Onboarding.other_steps after_first = Onboarding.other_steps state
  /\ after_first = Async.exec (Onboarding.onClick agents 0) state
  /\ Onboarding.selected agents 0 after_first = true.
Proof.
  intros H0 H1 after_second after_first.
  subst after_first after_second; unfold Async.exec.
  rewrite (@onClick_loaded Other agents 1 second state H1); cbn [fst].
  rewrite !(@onClick_loaded Other agents 0 first _ H0); cbn [fst].
  repeat split.
  unfold Onboarding.selected; rewrite H0; cbn.
  apply Js_eqb_eq; reflexivity.
Qed.

Lemma C8_power_then_subtractor :
  Async.exec
    (Onboarding.onClick [Scenarios.subtractor; Scenarios.power] 0)
    (Async.exec
       (Onboarding.onClick [Scenarios.subtractor; Scenarios.power] 1)
       Scenarios.nothing_selected)
  = {| Onboarding.selectedAgentSlug := Some (Js.lit "subtractor");
       Onboarding.selectedAgentCreator := Some (Js.lit "bright-eagle-40613");
       Onboarding.other_steps := tt |}.
Proof.
  pose proof (C8_last_selection_wins
                [Scenarios.subtractor; Scenarios.power]
                Scenarios.nothing_selected eq_refl eq_refl)
    as [_ [_ [_ [_ [_ [H _]]]]]].
  exact H.
Defined.

(** * Further properties *)

(** ** More about the JavaScript primitives *)

Lemma Js_trimStart_head (s : Js.str) :
  Js.trimStart s = []
  \/ exists c r, Js.trimStart s = c :: r /\ Js.is_whitespace c = false.
Proof.
  induction s as [|c s IH]; simpl; [left; reflexivity|].
  destruct (Js.is_whitespace c) eqn:Hc; [exact IH|].
  right; exists c, s; auto.
Qed.

Lemma Js_trimStart_nil (s : Js.str) :
  Js.trimStart s = [] -> forallb Js.is_whitespace s = true.
Proof.
  induction s as [|c s IH]; simpl; [reflexivity|].
  destruct (Js.is_whitespace c); [exact IH | discriminate].
Qed.

Lemma forallb_rev (A : Type) (f : A -> bool) (l : list A) :
  forallb f (rev l) = forallb f l.
Proof.
  induction l as [|a l IH]; simpl; [reflexivity|].
  rewrite forallb_app, IH; simpl; rewrite andb_true_r; apply andb_comm.
Qed.

Lemma Js_trim_nil (s : Js.str) :
  Js.trim s = [] <-> forallb Js.is_whitespace s = true.
Proof.
  split; [|apply Js_trim_whitespace].
  unfold Js.trim, Js.trimEnd; intros H.
  apply Js_trimStart_nil.
  assert (H1 : Js.trimStart (rev (Js.trimStart s)) = []).
  { rewrite <- (rev_involutive (Js.trimStart (rev (Js.trimStart s)))), H.
    reflexivity. }
  apply Js_trimStart_nil in H1; rewrite forallb_rev in H1.
  destruct (Js_trimStart_head s) as [H0|[c [r [H0 Hc]]]]; [exact H0|].
  rewrite H0 in H1; simpl in H1; rewrite Hc in H1; discriminate.
Qed.

Lemma Js_falsy_trim (s : Js.str) :
  Js.falsy (Js.trim s) = forallb Js.is_whitespace s.
Proof.
  destruct (forallb Js.is_whitespace s) eqn:H.
  - rewrite (Js_trim_whitespace s H); reflexivity.
  - destruct (Js.trim s) eqn:Ht; [|reflexivity].
    apply Js_trim_nil in Ht; congruence.
Qed.

Lemma Js_lit_inj (a b : string) : Js.lit a = Js.lit b -> a = b.
Proof.
  unfold Js.lit; intros H.
  rewrite <- (string_of_list_ascii_of_string a),
          <- (string_of_list_ascii_of_string b).
  f_equal.
  revert H; generalize (list_ascii_of_string a) (list_ascii_of_string b).
  induction l as [|x l IH]; intros [|y l']; simpl; intros H;
    try discriminate; [reflexivity|].
  inversion H as [[Hx Hl]].
  f_equal; [|exact (IH _ Hl)].
  rewrite <- (ascii_N_embedding x), <- (ascii_N_embedding y), Hx; reflexivity.
Qed.

Lemma N_to_uint_nonnil (n : N) : N.to_uint n <> Decimal.Nil.
Proof.
  destruct n as [|p]; [discriminate|].
  apply DecimalPos.Unsigned.to_uint_nonnil.
Qed.

Lemma Js_of_N_inj (n m : N) : Js.of_N n = Js.of_N m -> n = m.
Proof.
  unfold Js.of_N; intros H; apply Js_lit_inj in H.
  assert (Hu : NilZero.uint_of_string (NilZero.string_of_uint (N.to_uint n))
               = NilZero.uint_of_string (NilZero.string_of_uint (N.to_uint m)))
    by (rewrite H; reflexivity).
  rewrite !NilZero.usu in Hu by apply N_to_uint_nonnil.
  inversion Hu as [Hu'].
  transitivity (N.of_uint (N.to_uint n));
    [symmetry; apply DecimalN.Unsigned.of_to|].
  rewrite Hu'; apply DecimalN.Unsigned.of_to.
Qed.

(** ** The chat widget: what a submission that passed the guard leaves *)

Lemma errorMessage_cases (e : JsError) :
  (instanceof_Error e = true /\ message e = Js.lit "No active session"
   /\ Otto.errorMessage e = Otto.sign_in_text)
  \/ ((instanceof_Error e = false \/ message e <> Js.lit "No active session")
      /\ Otto.errorMessage e = Otto.retry_text).
Proof.
  unfold Otto.errorMessage.
  destruct (instanceof_Error e); simpl; [|right; auto].
  destruct (Js.eqb (message e) (Js.lit "No active session")) eqn:H.
  - apply Js_eqb_eq in H; left; auto.
  - right; split; [|reflexivity].
    right; intros Heq; apply Js_eqb_eq in Heq; congruence.
Qed.

Lemma submit_passed (env : Otto.Env) (w : Otto.World) :
  Js.falsy (Js.trim (Otto.inputValue (Otto.view w)))
    || Otto.isProcessing (Otto.view w) = false ->
  Otto.inputValue (Otto.view (Otto.submit env w)) = []
  /\ Otto.isProcessing (Otto.view (Otto.submit env w)) = false
  /\ Otto.isOpen (Otto.view (Otto.submit env w)) = Otto.isOpen (Otto.view w)
  /\ ((exists e,
         (forall session,
            Otto.supabase env <> Some (Normal (Some session)))
         /\ Otto.messages (Otto.view (Otto.submit env w))
            = Otto.messages (Otto.view w)
                ++ [ {| Otto.type := Otto.assistant;
                        Otto.content := Otto.errorMessage e |} ]
         /\ Otto.console_errors (Otto.submit env w)
            = Otto.console_errors w ++ [e]
         /\ Otto.requests (Otto.submit env w) = Otto.requests w
         /\ Otto.toasts (Otto.submit env w) = Otto.toasts w
         /\ Otto.includeGraphData (Otto.view (Otto.submit env w))
            = Otto.includeGraphData (Otto.view w))
      \/ (exists session reply,
            Otto.supabase env = Some (Normal (Some session))
            /\ Otto.messages (Otto.view (Otto.submit env w))
               = Otto.messages (Otto.view w)
                   ++ [ {| Otto.type := Otto.user;
                           Otto.content :=
                             Js.trim (Otto.inputValue (Otto.view w)) |};
                        {| Otto.type := Otto.assistant;
                           Otto.content := reply |} ]
            /\ Otto.requests (Otto.submit env w)
               = Otto.requests w
                   ++ [ Otto.ask_request env session
                          (Otto.ask_payload env (Otto.view w)
                             (Js.trim (Otto.inputValue (Otto.view w)))) ]
            /\ Otto.includeGraphData (Otto.view (Otto.submit env w)) = false)).
Proof.
  intros Hg.
  submit_paths env w; run_submit env w;
    repeat rewrite Js_slice_drop_last_app; repeat rewrite <- app_assoc;
    (split; [reflexivity|]); (split; [reflexivity|]); (split; [reflexivity|]);
    first
      [ right; eexists; eexists; repeat split; reflexivity
      | left; eexists; repeat split; try reflexivity;
        intros s; discriminate ].
Qed.

(** ** The chat widget: the remaining paths of a submission *)

(** X1. When a session is found, the ask-call returns a 2xx status and
    its body parses, the transcript gains the user's trimmed message
    followed by the answer, the input box is emptied, the in-flight flag
    is down, exactly one request has left, and neither a toast nor a
    console error is produced. *)
Theorem answered_submission_appends_answer (env : Otto.Env) (w : Otto.World)
    (session : Otto.Session) (resp : Otto.Response.t)
    (data : Otto.ApiResponse) :
  Js.falsy (Js.trim (Otto.inputValue (Otto.view w))) = false ->
  Otto.isProcessing (Otto.view w) = false ->
  Otto.supabase env = Some (Normal (Some session)) ->
  Otto.fetch env
    (Otto.ask_request env session
       (Otto.ask_payload env (Otto.view w)
          (Js.trim (Otto.inputValue (Otto.view w)))))
  = Normal resp ->
  Otto.Response.ok resp = true ->
  Otto.Response.json resp = Normal data ->
  Otto.messages (Otto.view (Otto.submit env w))
  = Otto.messages (Otto.view w)
      ++ [ {| Otto.type := Otto.user;
              Otto.content := Js.trim (Otto.inputValue (Otto.view w)) |};
           {| Otto.type := Otto.assistant; Otto.content := Otto.answer data |} ]
  /\ Otto.inputValue (Otto.view (Otto.submit env w)) = []
  /\ Otto.isProcessing (Otto.view (Otto.submit env w)) = false
  /\ Otto.toasts (Otto.submit env w) = Otto.toasts w
  /\ Otto.console_errors (Otto.submit env w) = Otto.console_errors w
  /\ Otto.requests (Otto.submit env w)
     = Otto.requests w
         ++ [ Otto.ask_request env session
                (Otto.ask_payload env (Otto.view w)
                   (Js.trim (Otto.inputValue (Otto.view w)))) ].
Proof.
  intros Ht Hp Hs Hf Hok Hj.
  assert (Hg : Js.falsy (Js.trim (Otto.inputValue (Otto.view w)))
               || Otto.isProcessing (Otto.view w) = false)
    by (rewrite Ht, Hp; reflexivity).
  run_submit env w.
  repeat split; tidy_transcript.
Qed.

Lemma answered_submission_run :
  Otto.messages (Otto.view (Otto.submit Scenarios.answered Scenarios.asking))
  = [ Otto.welcome_message;
      {| Otto.type := Otto.user;
         Otto.content := Js.lit "How do I add a block?" |};
      {| Otto.type := Otto.assistant;
         Otto.content := Js.lit "Drag it from the menu." |} ].
Proof.
  exact (proj1 (answered_submission_appends_answer
                  Scenarios.answered Scenarios.asking
                  eq_refl eq_refl eq_refl eq_refl eq_refl eq_refl)).
Defined.

(** X2. When the ask-call returns a status outside 200..299 other than
    401, the placeholder is replaced by the retry text, no toast is
    shown, and the error logged to the console reads "API request failed
    with status" followed by the status in decimal. *)
Theorem failed_status_gets_retry_text (env : Otto.Env) (w : Otto.World)
    (session : Otto.Session) (resp : Otto.Response.t) :
  Js.falsy (Js.trim (Otto.inputValue (Otto.view w))) = false ->
  Otto.isProcessing (Otto.view w) = false ->
  Otto.supabase env = Some (Normal (Some session)) ->
  Otto.fetch env
    (Otto.ask_request env session
       (Otto.ask_payload env (Otto.view w)
          (Js.trim (Otto.inputValue (Otto.view w)))))
  = Normal resp ->
  Otto.Response.ok resp = false ->
  Otto.Response.status resp <> 401%N ->
  Otto.messages (Otto.view (Otto.submit env w))
  = Otto.messages (Otto.view w)
      ++ [ {| Otto.type := Otto.user;
              Otto.content := Js.trim (Otto.inputValue (Otto.view w)) |};
           {| Otto.type := Otto.assistant; Otto.content := Otto.retry_text |} ]
  /\ Otto.toasts (Otto.submit env w) = Otto.toasts w
  /\ Otto.console_errors (Otto.submit env w)
     = Otto.console_errors w
         ++ [ Error_of (Js.lit "API request failed with status "
                          ++ Js.of_N (Otto.Response.status resp)) ].
Proof.
  intros Ht Hp Hs Hf Hok Hne.
  assert (Hg : Js.falsy (Js.trim (Otto.inputValue (Otto.view w)))
               || Otto.isProcessing (Otto.view w) = false)
    by (rewrite Ht, Hp; reflexivity).
  assert (H401 : (Otto.Response.status resp =? 401)%N = false)
    by (apply N.eqb_neq; exact Hne).
  run_submit env w.
  repeat split; tidy_transcript.
Qed.

Lemma failed_status_run :
  Otto.console_errors (Otto.submit Cases.unavailable Scenarios.asking)
  = [ Error_of (Js.lit "API request failed with status 503") ].
Proof.
  refine (proj2 (proj2 (failed_status_gets_retry_text
                          Cases.unavailable Scenarios.asking
                          eq_refl eq_refl eq_refl eq_refl eq_refl _))).
  discriminate.
Defined.

(** X3. When the ask-call itself rejects, or returns a 2xx status whose
    body fails to parse, the rejection is logged and the placeholder is
    replaced by the text the catch block computes from it: the retry
    text, unless the rejection is an Error whose message is exactly "No
    active session". *)
Theorem rejected_request_gets_error_text (env : Otto.Env) (w : Otto.World)
    (session : Otto.Session) (e : JsError) :
  Js.falsy (Js.trim (Otto.inputValue (Otto.view w))) = false ->
  Otto.isProcessing (Otto.view w) = false ->
  Otto.supabase env = Some (Normal (Some session)) ->
  Otto.fetch env
    (Otto.ask_request env session
       (Otto.ask_payload env (Otto.view w)
          (Js.trim (Otto.inputValue (Otto.view w)))))
  = Throw e
  \/ (exists resp,
        Otto.fetch env
          (Otto.ask_request env session
             (Otto.ask_payload env (Otto.view w)
                (Js.trim (Otto.inputValue (Otto.view w)))))
        = Normal resp
        /\ Otto.Response.ok resp = true
        /\ Otto.Response.json resp = Throw e) ->
  Otto.messages (Otto.view (Otto.submit env w))
  = Otto.messages (Otto.view w)
      ++ [ {| Otto.type := Otto.user;
              Otto.content := Js.trim (Otto.inputValue (Otto.view w)) |};
           {| Otto.type := Otto.assistant;
              Otto.content := Otto.errorMessage e |} ]
  /\ Otto.console_errors (Otto.submit env w) = Otto.console_errors w ++ [e]
  /\ Otto.toasts (Otto.submit env w) = Otto.toasts w
  /\ (message e <> Js.lit "No active session" ->
      Otto.errorMessage e = Otto.retry_text).
Proof.
  intros Ht Hp Hs Hr.
  assert (Hg : Js.falsy (Js.trim (Otto.inputValue (Otto.view w)))
               || Otto.isProcessing (Otto.view w) = false)
    by (rewrite Ht, Hp; reflexivity).
  assert (Htext : message e <> Js.lit "No active session" ->
                  Otto.errorMessage e = Otto.retry_text).
  { intros Hm; destruct (errorMessage_cases e) as [[_ [H _]]|[_ H]];
      [contradiction | exact H]. }
  destruct Hr as [Hf|[resp [Hf [Hok Hj]]]]; run_submit env w;
    repeat split; tidy_transcript; exact Htext.
Qed.

Lemma rejected_request_run :
  Otto.messages (Otto.view (Otto.submit Cases.offline Scenarios.asking))
  = [ Otto.welcome_message;
      {| Otto.type := Otto.user;
         Otto.content := Js.lit "How do I add a block?" |};
      {| Otto.type := Otto.assistant; Otto.content := Otto.retry_text |} ].
Proof.
  exact (proj1 (rejected_request_gets_error_text
                  Cases.offline Scenarios.asking
                  eq_refl eq_refl eq_refl (or_introl eq_refl))).
Defined.

(** X4. A submission that passes the guard and finds a session sends
    exactly one request: a POST to the address made of the configured
    backend URL, or of "http://localhost:8006" when none is configured
    or the configured one is empty, followed by "/api/otto/ask".  Its
    headers are the two JSON content headers and the session's access
    token as bearer credential, in that order.  Its body has the trimmed
    input as query, the history paired from the transcript as it was
    before the submission (without the question and the placeholder),
    and the graph-data flag as it was when the submission started. *)
Theorem submission_request (env : Otto.Env) (w : Otto.World)
    (session : Otto.Session) :
  Js.falsy (Js.trim (Otto.inputValue (Otto.view w))) = false ->
  Otto.isProcessing (Otto.view w) = false ->
  Otto.supabase env = Some (Normal (Some session)) ->
  exists rq,
    Otto.requests (Otto.submit env w) = Otto.requests w ++ [rq]
    /\ Otto.Request.method rq = Js.lit "POST"
    /\ (forall u,
          Otto.NEXT_PUBLIC_BACKEND_URL env = Some u ->
          u <> [] ->
          Otto.Request.url rq = u ++ Js.lit "/api/otto/ask")
    /\ (Otto.NEXT_PUBLIC_BACKEND_URL env = None
         \/ Otto.NEXT_PUBLIC_BACKEND_URL env = Some [] ->
        Otto.Request.url rq = Js.lit "http://localhost:8006/api/otto/ask")
    /\ Otto.Request.headers rq
       = [ (Js.lit "Content-Type", Js.lit "application/json");
           (Js.lit "Accept", Js.lit "application/json");
           (Js.lit "Authorization",
            Js.lit "Bearer " ++ Otto.access_token session) ]
    /\ Otto.Payload.query (Otto.Request.body rq)
       = Js.trim (Otto.inputValue (Otto.view w))
    /\ Otto.Payload.conversation_history (Otto.Request.body rq)
       = Otto.conversation_history (Otto.messages (Otto.view w))
    /\ Otto.Payload.include_graph_data (Otto.Request.body rq)
       = Otto.includeGraphData (Otto.view w).
Proof.
  intros Ht Hp Hs.
  assert (Hg : Js.falsy (Js.trim (Otto.inputValue (Otto.view w)))
               || Otto.isProcessing (Otto.view w) = false)
    by (rewrite Ht, Hp; reflexivity).
  destruct (submit_passed env w Hg) as [_ [_ [_ [H|H]]]].
  { destruct H as [e [Hno _]]; exfalso; exact (Hno session Hs). }
  destruct H as [session' [reply [Hs' [_ [Hr _]]]]].
  assert (session' = session) by congruence; subst session'.
  eexists; split; [exact Hr|].
  split; [reflexivity|].
  unfold Otto.ask_request, Js.or_else; cbn [Otto.Request.url].
  split.
  { intros u Hu Hne; rewrite Hu.
    destruct u as [|c u]; [contradiction|reflexivity]. }
  split.
  { intros [Hu|Hu]; rewrite Hu; reflexivity. }
  repeat split.
Qed.

Lemma submission_request_run :
  (exists rq,
     Otto.requests (Otto.submit Cases.hosted Scenarios.asking)
     = Otto.requests Scenarios.asking ++ [rq]
     /\ Otto.Request.url rq = Js.lit "https://backend.example/api/otto/ask"
     /\ Otto.Payload.query (Otto.Request.body rq)
        = Js.lit "How do I add a block?"
     /\ Otto.Payload.include_graph_data (Otto.Request.body rq) = true)
  /\ (exists rq,
        Otto.requests (Otto.submit Scenarios.answered Scenarios.asking)
        = Otto.requests Scenarios.asking ++ [rq]
        /\ Otto.Request.url rq
           = Js.lit "http://localhost:8006/api/otto/ask")
  /\ (exists rq,
        Otto.requests (Otto.submit Cases.nameless Scenarios.asking)
        = Otto.requests Scenarios.asking ++ [rq]
        /\ Otto.Request.url rq
           = Js.lit "http://localhost:8006/api/otto/ask").
Proof.
  split; [|split].
  - destruct (submission_request Cases.hosted Scenarios.asking
                eq_refl eq_refl eq_refl)
      as [rq [Hr [_ [Hu [_ [_ [Hq [_ Hf]]]]]]]].
    exists rq; split; [exact Hr|]; split; [|split; [exact Hq | exact Hf]].
    apply (Hu _ eq_refl); discriminate.
  - destruct (submission_request Scenarios.answered Scenarios.asking
                eq_refl eq_refl eq_refl)
      as [rq [Hr [_ [_ [Hd _]]]]].
    exists rq; split; [exact Hr|]; exact (Hd (or_introl eq_refl)).
  - destruct (submission_request Cases.nameless Scenarios.asking
                eq_refl eq_refl eq_refl)
      as [rq [Hr [_ [_ [Hd _]]]]].
    exists rq; split; [exact Hr|]; exact (Hd (or_intror eq_refl)).
Defined.

(** X5. No request leaves without a session: a submission stopped by
    the guard, or made when the client is missing, the session lookup
    fails or nobody is signed in, sends nothing. *)
Theorem no_session_no_request (env : Otto.Env) (w : Otto.World) :
  Js.falsy (Js.trim (Otto.inputValue (Otto.view w)))
    || Otto.isProcessing (Otto.view w) = true
  \/ (forall session, Otto.supabase env <> Some (Normal (Some session))) ->
  Otto.requests (Otto.submit env w) = Otto.requests w.
Proof.
  intros H.
  destruct (Js.falsy (Js.trim (Otto.inputValue (Otto.view w)))
            || Otto.isProcessing (Otto.view w)) eqn:Hg.
  { rewrite (submit_blocked env w Hg); reflexivity. }
  destruct H as [H|H]; [discriminate|].
  destruct (submit_passed env w Hg) as [_ [_ [_ [Hn|Hy]]]].
  - destruct Hn as [e [_ [_ [_ [Hr _]]]]]; exact Hr.
  - destruct Hy as [session [reply [Hs _]]]; exfalso; exact (H session Hs).
Qed.

Lemma no_session_no_request_run :
  Otto.requests (Otto.submit Cases.no_client Scenarios.asking) = []
  /\ Otto.requests (Otto.submit Scenarios.answered Scenarios.busy) = [].
Proof.
  split.
  - refine (no_session_no_request Cases.no_client Scenarios.asking
              (or_intror _)).
    intros session; discriminate.
  - exact (no_session_no_request Scenarios.answered Scenarios.busy
             (or_introl eq_refl)).
Defined.

(** ** The chat widget: payload identifiers *)

(** X6. Two payloads carry the same message id exactly when they were
    built at the same [Date.now()] value: the decimal rendering followed
    by "-web" loses nothing of the time stamp. *)
Theorem message_id_determines_time (env1 env2 : Otto.Env)
    (r1 r2 : Otto.WidgetState) (u1 u2 : Js.str) :
  Otto.Payload.message_id (Otto.ask_payload env1 r1 u1)
  = Otto.Payload.message_id (Otto.ask_payload env2 r2 u2)
  <-> Otto.Date_now env1 = Otto.Date_now env2.
Proof.
  unfold Otto.ask_payload; cbn [Otto.Payload.message_id].
  split; [|intros ->; reflexivity].
  intros H; apply app_inv_tail in H; exact (Js_of_N_inj _ _ H).
Qed.

(** X7. The identifiers of the payload that is sent fall back as
    follows.  The user id is the id of the signed-in user when there is
    one and its id is not empty, and "anonymous" when the user is absent
    or its id is empty.  The graph id is the flow id of the page address
    when there is one and it is not empty, and undefined when it is
    absent or empty.  So the payload never carries an empty user id or
    an empty graph id. *)
Theorem payload_identifier_fallbacks (env : Otto.Env) (w : Otto.World)
    (session : Otto.Session) :
  Js.falsy (Js.trim (Otto.inputValue (Otto.view w))) = false ->
  Otto.isProcessing (Otto.view w) = false ->
  Otto.supabase env = Some (Normal (Some session)) ->
  exists rq,
    Otto.requests (Otto.submit env w) = Otto.requests w ++ [rq]
    /\ (forall u,
          Otto.supabase_user env = Some u ->
          Otto.id u <> [] ->
          Otto.Payload.user_id (Otto.Request.body rq) = Otto.id u)
    /\ ((Otto.supabase_user env = None
          \/ exists u, Otto.supabase_user env = Some u /\ Otto.id u = []) ->
        Otto.Payload.user_id (Otto.Request.body rq) = Js.lit "anonymous")
    /\ (forall f,
          Otto.flowID env = Some f ->
          f <> [] ->
          Otto.Payload.graph_id (Otto.Request.body rq) = Some f)
    /\ (Otto.flowID env = None \/ Otto.flowID env = Some [] ->
        Otto.Payload.graph_id (Otto.Request.body rq) = None)
    /\ Otto.Payload.user_id (Otto.Request.body rq) <> []
    /\ Otto.Payload.graph_id (Otto.Request.body rq) <> Some [].
Proof.
  intros Ht Hp Hs.
  assert (Hg : Js.falsy (Js.trim (Otto.inputValue (Otto.view w)))
               || Otto.isProcessing (Otto.view w) = false)
    by (rewrite Ht, Hp; reflexivity).
  destruct (submit_passed env w Hg) as [_ [_ [_ [H|H]]]].
  { destruct H as [e [Hno _]]; exfalso; exact (Hno session Hs). }
  destruct H as [session' [reply [_ [_ [Hr _]]]]].
  eexists; split; [exact Hr|].
  unfold Otto.ask_request, Otto.ask_payload, Js.or_else;
    cbn [Otto.Request.body Otto.Payload.user_id Otto.Payload.graph_id].
  split; [|split; [|split; [|split; [|split]]]].
  - intros u Hu Hne; rewrite Hu.
    destruct (Otto.id u) as [|c i]; [contradiction|reflexivity].
  - intros [Hu|[u [Hu Hi]]]; rewrite Hu; [|rewrite Hi]; reflexivity.
  - intros f Hf Hne; rewrite Hf.
    destruct f as [|c f]; [contradiction|reflexivity].
  - intros [Hf|Hf]; rewrite Hf; reflexivity.
  - destruct (Otto.supabase_user env) as [[[|c i]]|]; discriminate.
  - destruct (Otto.flowID env) as [[|c f]|]; discriminate.
Qed.

Lemma payload_identifier_run :
  (exists rq,
     Otto.requests (Otto.submit Cases.nameless Scenarios.asking)
     = Otto.requests Scenarios.asking ++ [rq]
     /\ Otto.Payload.user_id (Otto.Request.body rq) = Js.lit "anonymous"
     /\ Otto.Payload.graph_id (Otto.Request.body rq) = None)
  /\ (exists rq,
        Otto.requests (Otto.submit Scenarios.answered Scenarios.asking)
        = Otto.requests Scenarios.asking ++ [rq]
        /\ Otto.Payload.user_id (Otto.Request.body rq) = Js.lit "user-1"
        /\ Otto.Payload.graph_id (Otto.Request.body rq)
           = Some (Js.lit "flow-1")).
Proof.
  split.
  - destruct (payload_identifier_fallbacks Cases.nameless Scenarios.asking
                eq_refl eq_refl eq_refl)
      as [rq [Hr [_ [Hanon [_ [Hnone _]]]]]].
    exists rq; split; [exact Hr|]; split.
    + apply Hanon; right; eexists; split; reflexivity.
    + exact (Hnone (or_intror eq_refl)).
  - destruct (payload_identifier_fallbacks Scenarios.answered Scenarios.asking
                eq_refl eq_refl eq_refl)
      as [rq [Hr [Hid [_ [Hflow _]]]]].
    exists rq; split; [exact Hr|]; split.
    + apply (Hid _ eq_refl); discriminate.
    + apply (Hflow _ eq_refl); discriminate.
Defined.

(** ** The chat widget: how submissions compose *)

(** X8. The graph-data opt-in is one-shot: when two questions are sent
    in a row, each finding a session, the first request carries the flag
    as the user left it and the second carries false, whatever the
    backend answered to the first. *)
Theorem graph_data_flag_is_one_shot (env1 env2 : Otto.Env) (w : Otto.World)
    (session1 session2 : Otto.Session) (text : Js.str) :
  Js.falsy (Js.trim (Otto.inputValue (Otto.view w))) = false ->
  Otto.isProcessing (Otto.view w) = false ->
  Otto.supabase env1 = Some (Normal (Some session1)) ->
  Js.falsy (Js.trim text) = false ->
  Otto.supabase env2 = Some (Normal (Some session2)) ->
  exists rq1 rq2,
    Otto.requests
      (Otto.submit env2
         (Otto.dispatch (Otto.submit env1 w) (Otto.Change text)))
    = Otto.requests w ++ [rq1; rq2]
    /\ Otto.Payload.include_graph_data (Otto.Request.body rq1)
       = Otto.includeGraphData (Otto.view w)
    /\ Otto.Payload.include_graph_data (Otto.Request.body rq2) = false.
Proof.
  intros Ht Hp Hs1 Htext Hs2.
  assert (Hg : Js.falsy (Js.trim (Otto.inputValue (Otto.view w)))
               || Otto.isProcessing (Otto.view w) = false)
    by (rewrite Ht, Hp; reflexivity).
  destruct (submit_passed env1 w Hg) as [_ [Hp1 [_ [H|H]]]].
  { destruct H as [e [Hno _]]; exfalso; exact (Hno session1 Hs1). }
  destruct H as [s1 [reply1 [_ [_ [Hr1 Hflag1]]]]].
  set (w1 := Otto.submit env1 w) in *.
  set (w2 := Otto.dispatch w1 (Otto.Change text)).
  assert (Hin2 : Otto.inputValue (Otto.view w2) = text) by reflexivity.
  assert (Hp2 : Otto.isProcessing (Otto.view w2)
                = Otto.isProcessing (Otto.view w1)) by reflexivity.
  assert (Hf2 : Otto.includeGraphData (Otto.view w2)
                = Otto.includeGraphData (Otto.view w1)) by reflexivity.
  assert (Hq2 : Otto.requests w2 = Otto.requests w1) by reflexivity.
  assert (Hg2 : Js.falsy (Js.trim (Otto.inputValue (Otto.view w2)))
                || Otto.isProcessing (Otto.view w2) = false)
    by (rewrite Hin2, Hp2, Htext, Hp1; reflexivity).
  destruct (submit_passed env2 w2 Hg2) as [_ [_ [_ [H|H]]]].
  { destruct H as [e [Hno _]]; exfalso; exact (Hno session2 Hs2). }
  destruct H as [s2 [reply2 [_ [_ [Hr2 _]]]]].
  eexists; eexists; split.
  { rewrite Hr2, Hq2, Hr1, <- app_assoc; reflexivity. }
  split; [reflexivity|].
  cbn [Otto.ask_request Otto.ask_payload Otto.Request.body
       Otto.Payload.include_graph_data].
  rewrite Hf2; exact Hflag1.
Qed.

Lemma graph_data_flag_run :
  map (fun rq => Otto.Payload.include_graph_data (Otto.Request.body rq))
    (Otto.requests
       (Otto.submit Scenarios.answered
          (Otto.dispatch (Otto.submit Scenarios.unauthorized Scenarios.asking)
             (Otto.Change (Js.lit "And a second one?")))))
  = [true; false].
Proof.
  destruct (graph_data_flag_is_one_shot
              Scenarios.unauthorized Scenarios.answered Scenarios.asking
              (Js.lit "And a second one?") eq_refl eq_refl eq_refl eq_refl
              eq_refl) as [rq1 [rq2 [Hr [H1 H2]]]].
  rewrite Hr; simpl; rewrite H1, H2; reflexivity.
Defined.

(** X9. Submitting twice without typing in between sends at most one
    question: the second submission, whatever its surroundings, leaves
    the view state and the list of requests as the first one left
    them. *)
Theorem immediate_resubmission_is_ignored (env1 env2 : Otto.Env)
    (w : Otto.World) :
  Otto.view (Otto.submit env2 (Otto.submit env1 w))
  = Otto.view (Otto.submit env1 w)
  /\ Otto.requests (Otto.submit env2 (Otto.submit env1 w))
     = Otto.requests (Otto.submit env1 w).
Proof.
  assert (Hblocked :
    Js.falsy (Js.trim (Otto.inputValue (Otto.view (Otto.submit env1 w))))
      || Otto.isProcessing (Otto.view (Otto.submit env1 w)) = true).
  { destruct (Js.falsy (Js.trim (Otto.inputValue (Otto.view w)))
              || Otto.isProcessing (Otto.view w)) eqn:Hg.
    - rewrite (submit_blocked env1 w Hg); exact Hg.
    - destruct (submit_passed env1 w Hg) as [Hin _].
      rewrite Hin; reflexivity. }
  rewrite (submit_blocked env2 _ Hblocked); split; reflexivity.
Qed.

(** X11. The only toast a submission ever shows is the authentication
    toast, and it shows it only when the ask-call came back with status
    401. *)
Theorem toast_only_on_401 (env : Otto.Env) (w : Otto.World) :
  Otto.toasts (Otto.submit env w) = Otto.toasts w
  \/ (Otto.toasts (Otto.submit env w)
      = Otto.toasts w ++ [Otto.authentication_toast]
      /\ exists session resp,
           Otto.supabase env = Some (Normal (Some session))
           /\ Otto.fetch env
                (Otto.ask_request env session
                   (Otto.ask_payload env (Otto.view w)
                      (Js.trim (Otto.inputValue (Otto.view w)))))
              = Normal resp
           /\ Otto.Response.status resp = 401%N).
Proof.
  destruct (Js.falsy (Js.trim (Otto.inputValue (Otto.view w)))
            || Otto.isProcessing (Otto.view w)) eqn:Hg.
  { left; rewrite (submit_blocked env w Hg); reflexivity. }
  submit_paths env w;
    try (left; run_submit env w; reflexivity).
  right; split; [run_submit env w; reflexivity|].
  exists session, resp; repeat split; [exact Hf|].
  apply N.eqb_eq; exact H401.
Qed.

(** X12. A submission changes the transcript exactly when the input
    holds a code unit that is not white space and no request is in
    flight. *)
Theorem transcript_changes_iff_accepted (env : Otto.Env) (w : Otto.World) :
  Otto.messages (Otto.view (Otto.submit env w)) <> Otto.messages (Otto.view w)
  <-> forallb Js.is_whitespace (Otto.inputValue (Otto.view w)) = false
      /\ Otto.isProcessing (Otto.view w) = false.
Proof.
  assert (Hgrow : forall (l t : list Otto.Message),
            t <> [] -> l ++ t <> l).
  { intros l t Ht H; apply Ht.
    apply (app_inv_head l); rewrite app_nil_r; exact H. }
  destruct (Js.falsy (Js.trim (Otto.inputValue (Otto.view w)))
            || Otto.isProcessing (Otto.view w)) eqn:Hg.
  - rewrite (submit_blocked env w Hg); simpl.
    rewrite Js_falsy_trim in Hg.
    split; [intros H; exfalso; apply H; reflexivity|].
    intros [H1 H2]; rewrite H1, H2 in Hg; discriminate.
  - rewrite Js_falsy_trim in Hg.
    apply orb_false_iff in Hg.
    split; [intros _; exact Hg|intros _].
    assert (Hg' : Js.falsy (Js.trim (Otto.inputValue (Otto.view w)))
                  || Otto.isProcessing (Otto.view w) = false)
      by (rewrite Js_falsy_trim; apply orb_false_iff; exact Hg).
    destruct (submit_passed env w Hg') as [_ [_ [_ [H|H]]]].
    + destruct H as [e [_ [Hm _]]]; rewrite Hm; apply Hgrow; discriminate.
    + destruct H as [s [reply [_ [Hm _]]]]; rewrite Hm; apply Hgrow;
        discriminate.
Qed.

(** ** The credits hook: failures, composition and what stays untouched *)

Ltac run_hook :=
  unfold Async.exec, CreditsEffects.mount, Credits.updateAutoTopUpConfig,
    Credits.requestTopUp, Credits.fetchCredits, Credits.fetchAutoTopUpConfig,
    Credits.fetchTransactionHistory, Async.detached, Credits.call,
    Credits.setCredits, Credits.setAutoTopUpConfig,
    Credits.setTransactionHistory, Credits.router_push, Credits.with_hook,
    Async.bind, Async.modify, Async.await, Async.ret;
  cbn [fst snd Credits.hook Credits.server Credits.calls
       Credits.router_pushed].

(** X13. When the backend rejects the write of updateAutoTopUpConfig,
    the rejection reaches the caller, no read is issued, and the hook's
    state is what it was. *)
Theorem rejected_write_triggers_no_read
    (number Transaction Time Server : Type)
    (api : Credits.AutoGPTServerAPI number Transaction Time Server)
    (w : Credits.World number Transaction Time Server)
    (amount threshold : number) (s1 : Server) (e : JsError) :
  Credits.api_setAutoTopUpConfig api
    {| Credits.amount := amount; Credits.threshold := threshold |}
    (Credits.server w)
  = (s1, Throw e) ->
  snd (Credits.updateAutoTopUpConfig api amount threshold w) = Throw e
  /\ Credits.hook
       (Async.exec (Credits.updateAutoTopUpConfig api amount threshold) w)
     = Credits.hook w
  /\ Credits.calls
       (Async.exec (Credits.updateAutoTopUpConfig api amount threshold) w)
     = Credits.calls w
         ++ [ Credits.SetAutoTopUpConfig Transaction Time
                {| Credits.amount := amount; Credits.threshold := threshold |}
                (Throw e) ].
Proof.
  intros Hw; run_hook; rewrite Hw; cbn; repeat split.
Qed.

Lemma rejected_write_run :
  Credits.calls
    (Async.exec (Credits.updateAutoTopUpConfig Cases.read_only_api 25%Z 10%Z)
       Cases.fresh_hook)
  = [ Credits.SetAutoTopUpConfig nat nat
        {| Credits.amount := 25%Z; Credits.threshold := 10%Z |}
        (Throw Scenarios.failed_to_fetch) ].
Proof.
  exact (proj2 (proj2 (rejected_write_triggers_no_read
                         Cases.read_only_api Cases.fresh_hook 25%Z 10%Z
                         eq_refl))).
Defined.

(** X14. When the write of updateAutoTopUpConfig succeeds and the
    follow-up read is rejected, the call still completes normally (the
    read is not awaited) and the hook keeps the configuration it had,
    which is neither the written one nor a read one. *)
Theorem rejected_read_keeps_old_config
    (number Transaction Time Server : Type)
    (api : Credits.AutoGPTServerAPI number Transaction Time Server)
    (w : Credits.World number Transaction Time Server)
    (amount threshold : number) (s1 s2 : Server) (e : JsError) :
  Credits.api_setAutoTopUpConfig api
    {| Credits.amount := amount; Credits.threshold := threshold |}
    (Credits.server w)
  = (s1, Normal tt) ->
  Credits.api_getAutoTopUpConfig api s1 = (s2, Throw e) ->
  snd (Credits.updateAutoTopUpConfig api amount threshold w) = Normal tt
  /\ Credits.hook
       (Async.exec (Credits.updateAutoTopUpConfig api amount threshold) w)
     = Credits.hook w
  /\ Credits.calls
       (Async.exec (Credits.updateAutoTopUpConfig api amount threshold) w)
     = Credits.calls w
         ++ [ Credits.SetAutoTopUpConfig Transaction Time
                {| Credits.amount := amount; Credits.threshold := threshold |}
                (Normal tt);
              Credits.GetAutoTopUpConfig Transaction Time (Throw e) ].
Proof.
  intros Hw Hr; run_hook; rewrite Hw; cbn; rewrite Hr; cbn.
  rewrite <- app_assoc; repeat split.
Qed.

Lemma rejected_read_run :
  Credits.autoTopUpConfig
    (Credits.hook
       (Async.exec
          (Credits.updateAutoTopUpConfig Cases.write_only_api 25%Z 10%Z)
          Cases.fresh_hook))
  = None.
Proof.
  exact (f_equal (@Credits.autoTopUpConfig Z nat nat)
           (proj1 (proj2 (rejected_read_keeps_old_config
                            Cases.write_only_api Cases.fresh_hook 25%Z 10%Z
                            eq_refl eq_refl)))).
Defined.

(** X15. requestTopUp without a Stripe client, because the promise
    resolved with null or was rejected, calls no backend method and does
    not navigate; with null it even completes normally, so the caller
    learns nothing. *)
Theorem top_up_without_stripe_does_nothing
    (number Transaction Time Server : Type)
    (api : Credits.AutoGPTServerAPI number Transaction Time Server)
    (w : Credits.World number Transaction Time Server)
    (stripePromise : Completion (option unit)) (credit_amount : number) :
  (forall stripe, stripePromise <> Normal (Some stripe)) ->
  Async.exec (Credits.requestTopUp api stripePromise credit_amount) w = w
  /\ (stripePromise = Normal None ->
      snd (Credits.requestTopUp api stripePromise credit_amount w)
      = Normal tt).
Proof.
  intros Hno; run_hook.
  destruct stripePromise as [[stripe|]|e]; cbn.
  - exfalso; exact (Hno stripe eq_refl).
  - split; reflexivity.
  - split; [reflexivity | discriminate].
Qed.

Lemma top_up_without_stripe_run :
  Async.exec
    (Credits.requestTopUp Scenarios.ledger_api (Normal None) 500%Z)
    Cases.fresh_hook
  = Cases.fresh_hook.
Proof.
  refine (proj1 (@top_up_without_stripe_does_nothing _ _ _ _
                   Scenarios.ledger_api Cases.fresh_hook (Normal None) 500%Z
                   _)).
  intros stripe; discriminate.
Defined.

(** X16. With a Stripe client, requestTopUp asks the backend once for
    a checkout session.  It navigates, to the returned checkout URL and
    nowhere else, exactly when that call succeeds; a rejection reaches
    the caller without any navigation.  The hook's state, the balance
    included, is never changed by it. *)
Theorem top_up_navigates_to_checkout
    (number Transaction Time Server : Type)
    (api : Credits.AutoGPTServerAPI number Transaction Time Server)
    (w : Credits.World number Transaction Time Server)
    (stripe : unit) (credit_amount : number) (s1 : Server)
    (result : Completion Credits.TopUpResponse) :
  Credits.api_requestTopUp api credit_amount (Credits.server w)
  = (s1, result) ->
  let w' :=
    Async.exec
      (Credits.requestTopUp api (Normal (Some stripe)) credit_amount) w in
  Credits.hook w' = Credits.hook w
  /\ Credits.calls w'
     = Credits.calls w
         ++ [Credits.RequestTopUp Transaction Time credit_amount result]
  /\ Credits.router_pushed w'
     = Credits.router_pushed w
         ++ match result with
            | Normal response => [Credits.checkout_url response]
            | Throw _ => []
            end
  /\ snd (Credits.requestTopUp api (Normal (Some stripe)) credit_amount w)
     = match result with
       | Normal _ => Normal tt
       | Throw e => Throw e
       end.
Proof.
  intros Hr w'; subst w'; run_hook; rewrite Hr.
  destruct result as [response|e]; cbn; rewrite ?app_nil_r; repeat split.
Qed.

Lemma top_up_navigation_run :
  Credits.router_pushed
    (Async.exec
       (Credits.requestTopUp Scenarios.ledger_api (Normal (Some tt)) 500%Z)
       Cases.fresh_hook)
  = [Js.lit "https://checkout"]
  /\ Credits.router_pushed
       (Async.exec
          (Credits.requestTopUp Cases.read_only_api (Normal (Some tt)) 500%Z)
          Cases.fresh_hook)
     = [].
Proof.
  split.
  - exact (proj1 (proj2 (proj2 (top_up_navigates_to_checkout
                                  Scenarios.ledger_api Cases.fresh_hook tt
                                  500%Z eq_refl)))).
  - exact (proj1 (proj2 (proj2 (top_up_navigates_to_checkout
                                  Cases.read_only_api Cases.fresh_hook tt
                                  500%Z eq_refl)))).
Defined.

(** X17. Two calls of fetchTransactionHistory made from the same
    render, settling in call order, both ask for the page at that
    render's cursor, and the second result overwrites the first: the
    history ends as the render's transactions followed by the second
    page only. *)
Theorem same_render_fetches_overwrite
    (number Transaction Time Server : Type)
    (api : Credits.AutoGPTServerAPI number Transaction Time Server)
    (w : Credits.World number Transaction Time Server)
    (r page1 page2 : Credits.TransactionHistory Transaction Time)
    (s1 s2 : Server) :
  Credits.api_getTransactionHistory api (Credits.next_transaction_time r) 20
    (Credits.server w)
  = (s1, Normal page1) ->
  Credits.api_getTransactionHistory api (Credits.next_transaction_time r) 20
    s1
  = (s2, Normal page2) ->
  let w' :=
    Async.exec
      (Credits.fetchTransactionHistory api r ;;
       Credits.fetchTransactionHistory api r) w in
  Credits.transactionHistory (Credits.hook w')
  = {| Credits.transactions :=
         Credits.transactions r ++ Credits.transactions page2;
       Credits.next_transaction_time :=
         Credits.next_transaction_time page2 |}
  /\ Credits.history_requests (Credits.calls w')
     = Credits.history_requests (Credits.calls w)
         ++ [ (Credits.next_transaction_time r, 20%N);
              (Credits.next_transaction_time r, 20%N) ].
Proof.
  intros H1 H2 w'; subst w'; run_hook.
  rewrite H1; cbn; rewrite H2; cbn.
  split; [reflexivity|].
  unfold Credits.history_requests; rewrite <- app_assoc, flat_map_app.
  reflexivity.
Qed.

Lemma same_render_fetches_run :
  Credits.transactions
    (Credits.transactionHistory
       (Credits.hook
          (Async.exec
             (Credits.fetchTransactionHistory Scenarios.ledger_api
                (Credits.transactionHistory (Credits.hook Cases.fresh_hook)) ;;
              Credits.fetchTransactionHistory Scenarios.ledger_api
                (Credits.transactionHistory (Credits.hook Cases.fresh_hook)))
             Cases.fresh_hook)))
  = [30; 20].
Proof.
  exact (f_equal (@Credits.transactions nat nat)
           (proj1 (same_render_fetches_overwrite
                     Scenarios.ledger_api Cases.fresh_hook
                     (Credits.transactionHistory (Credits.hook Cases.fresh_hook))
                     eq_refl eq_refl))).
Defined.

(** X18. A rejected read changes nothing: when the backend rejects the
    call behind fetchCredits, fetchAutoTopUpConfig or
    fetchTransactionHistory, the rejection reaches the caller and the
    hook's state, accumulated history and cursor included, is what it
    was. *)
Theorem rejected_fetch_keeps_state
    (number Transaction Time Server : Type)
    (api : Credits.AutoGPTServerAPI number Transaction Time Server)
    (w : Credits.World number Transaction Time Server)
    (r : Credits.TransactionHistory Transaction Time) :
  (forall s e,
     Credits.api_getUserCredit api (Credits.server w) = (s, Throw e) ->
     Credits.hook (Async.exec (Credits.fetchCredits api) w) = Credits.hook w
     /\ snd (Credits.fetchCredits api w) = Throw e)
  /\ (forall s e,
        Credits.api_getAutoTopUpConfig api (Credits.server w) = (s, Throw e) ->
        Credits.hook (Async.exec (Credits.fetchAutoTopUpConfig api) w)
        = Credits.hook w
        /\ snd (Credits.fetchAutoTopUpConfig api w) = Throw e)
  /\ (forall s e,
        Credits.api_getTransactionHistory api
          (Credits.next_transaction_time r) 20 (Credits.server w)
        = (s, Throw e) ->
        Credits.hook (Async.exec (Credits.fetchTransactionHistory api r) w)
        = Credits.hook w
        /\ snd (Credits.fetchTransactionHistory api r w) = Throw e).
Proof.
  repeat split; run_hook; rewrite H; reflexivity.
Qed.

Lemma rejected_fetch_run :
  Credits.hook
    (Async.exec (Credits.fetchCredits Cases.write_only_api) Cases.fresh_hook)
  = Credits.hook Cases.fresh_hook
  /\ Credits.hook
       (Async.exec (Credits.fetchAutoTopUpConfig Cases.write_only_api)
          Cases.fresh_hook)
     = Credits.hook Cases.fresh_hook
  /\ Credits.hook
       (Async.exec
          (Credits.fetchTransactionHistory Cases.write_only_api
             (Credits.transactionHistory (Credits.hook Cases.fresh_hook)))
          Cases.fresh_hook)
     = Credits.hook Cases.fresh_hook.
Proof.
  pose proof (rejected_fetch_keeps_state Cases.write_only_api Cases.fresh_hook
                (Credits.transactionHistory (Credits.hook Cases.fresh_hook)))
    as [H1 [H2 H3]].
  split; [|split].
  - exact (proj1 (H1 _ _ eq_refl)).
  - exact (proj1 (H2 _ _ eq_refl)).
  - exact (proj1 (H3 _ _ eq_refl)).
Defined.

(** X19. Each operation of the hook writes only its own cell: reading
    the balance leaves configuration and history alone, reading or
    updating the configuration leaves balance and history alone, reading
    a history page leaves balance and configuration alone, and none of
    them navigates. *)
Theorem operations_touch_only_their_cell
    (number Transaction Time Server : Type)
    (api : Credits.AutoGPTServerAPI number Transaction Time Server)
    (w : Credits.World number Transaction Time Server)
    (amount threshold : number)
    (r : Credits.TransactionHistory Transaction Time) :
  let after_credits := Async.exec (Credits.fetchCredits api) w in
  let after_config := Async.exec (Credits.fetchAutoTopUpConfig api) w in
  let after_update :=
    Async.exec (Credits.updateAutoTopUpConfig api amount threshold) w in
  let after_history := Async.exec (Credits.fetchTransactionHistory api r) w in
  (Credits.autoTopUpConfig (Credits.hook after_credits)
   = Credits.autoTopUpConfig (Credits.hook w)
   /\ Credits.transactionHistory (Credits.hook after_credits)
      = Credits.transactionHistory (Credits.hook w))
  /\ (Credits.credits (Credits.hook after_config)
      = Credits.credits (Credits.hook w)
      /\ Credits.transactionHistory (Credits.hook after_config)
         = Credits.transactionHistory (Credits.hook w))
  /\ (Credits.credits (Credits.hook after_update)
      = Credits.credits (Credits.hook w)
      /\ Credits.transactionHistory (Credits.hook after_update)
         = Credits.transactionHistory (Credits.hook w))
  /\ (Credits.credits (Credits.hook after_history)
      = Credits.credits (Credits.hook w)
      /\ Credits.autoTopUpConfig (Credits.hook after_history)
         = Credits.autoTopUpConfig (Credits.hook w))
  /\ Credits.router_pushed after_credits = Credits.router_pushed w
  /\ Credits.router_pushed after_config = Credits.router_pushed w
  /\ Credits.router_pushed after_update = Credits.router_pushed w
  /\ Credits.router_pushed after_history = Credits.router_pushed w.
Proof.
  intros after_credits after_config after_update after_history.
  subst after_credits after_config after_update after_history; run_hook.
  destruct (Credits.api_getUserCredit api (Credits.server w)) as [sa [a|ea]];
  destruct (Credits.api_getAutoTopUpConfig api (Credits.server w))
    as [sb [b|eb]];
  destruct (Credits.api_getTransactionHistory api _ _ (Credits.server w))
    as [sc [c|ec]];
  destruct (Credits.api_setAutoTopUpConfig api _ (Credits.server w))
    as [sd [[]|ed]]; cbn;
  try destruct (Credits.api_getAutoTopUpConfig api sd) as [sf [f|ef]]; cbn;
  repeat split.
Qed.

(** X20. On mount the hook issues exactly three calls, in this order:
    the balance, the auto top-up configuration, and the first history
    page with a null cursor and page size 20.  Each cell is loaded exactly
    when its own call succeeds; a failure of one load does not keep the
    others from loading. *)
Theorem mount_loads_each_cell_independently
    (number Transaction Time Server : Type)
    (api : Credits.AutoGPTServerAPI number Transaction Time Server)
    (s : Server) :
  let w :=
    Async.exec (CreditsEffects.mount api)
      (Credits.initial_world number Transaction Time s) in
  exists r1 r2 r3,
    Credits.calls w
    = [ Credits.GetUserCredit Transaction Time r1;
        Credits.GetAutoTopUpConfig Transaction Time r2;
        Credits.GetTransactionHistory number None 20 r3 ]
    /\ Credits.credits (Credits.hook w)
       = match r1 with
         | Normal response => Some (Credits.response_credits response)
         | Throw _ => None
         end
    /\ Credits.autoTopUpConfig (Credits.hook w)
       = match r2 with
         | Normal response => Some response
         | Throw _ => None
         end
    /\ Credits.transactions (Credits.transactionHistory (Credits.hook w))
       = match r3 with
         | Normal page => Credits.transactions page
         | Throw _ => []
         end
    /\ Credits.next_transaction_time
         (Credits.transactionHistory (Credits.hook w))
       = match r3 with
         | Normal page => Credits.next_transaction_time page
         | Throw _ => None
         end.
Proof.
  intros w; subst w; run_hook.
  unfold Credits.initial_world, Credits.initial_state;
    cbn [Credits.server Credits.hook Credits.calls Credits.transactionHistory
         Credits.next_transaction_time Credits.transactions].
  destruct (Credits.api_getUserCredit api s) as [s1 r1]; cbn.
  destruct (Credits.api_getAutoTopUpConfig api s1) as [s2 r2] eqn:H2.
  destruct (Credits.api_getTransactionHistory api None 20 s2) as [s3 r3] eqn:H3.
  exists r1, r2, r3.
  destruct r1 as [a|ea]; cbn; rewrite H2;
    destruct r2 as [b|eb]; cbn; rewrite H3;
    destruct r3 as [c|ec]; cbn; repeat split.
Qed.

(** ** The onboarding step: loading, clicking, and the Next button *)

(** X21. isEmptyOrWhitespace answers true exactly for an absent string
    and for a string all of whose code units are white space, the empty
    string included. *)
Theorem isEmptyOrWhitespace_spec (str : option Js.str) :
  Onboarding.isEmptyOrWhitespace str = true
  <-> match str with
      | None => True
      | Some s => forallb Js.is_whitespace s = true
      end.
Proof.
  destruct str as [s|]; simpl; [|tauto].
  rewrite <- Js_trim_nil.
  destruct s as [|c s]; simpl; [split; reflexivity|].
  destruct (Js.trim (c :: s)); simpl; split; auto; discriminate.
Qed.

Lemma onClick_unloaded (Other : Type)
    (agents : list Onboarding.StoreAgentDetails) (i : nat)
    (state : Onboarding.OnboardingState Other) :
  nth_error agents i = None ->
  Onboarding.onClick agents i state = (state, Throw Onboarding.TypeError).
Proof. intros H; unfold Onboarding.onClick; rewrite H; reflexivity. Qed.

(** X22. A click on a card whose agent has not arrived throws and
    leaves the wizard state as it is. *)
Theorem click_before_load_changes_nothing (Other : Type)
    (agents : list Onboarding.StoreAgentDetails) (i : nat)
    (state : Onboarding.OnboardingState Other) :
  nth_error agents i = None ->
  Async.exec (Onboarding.onClick agents i) state = state
  /\ exists e, snd (Onboarding.onClick agents i state) = Throw e.
Proof.
  intros H; unfold Async.exec; rewrite (onClick_unloaded agents i state H).
  split; [reflexivity|]; eexists; reflexivity.
Qed.

Lemma click_before_load_run :
  Async.exec (Onboarding.onClick AgentStep.initial_agents 0)
    Scenarios.nothing_selected
  = Scenarios.nothing_selected.
Proof.
  exact (proj1 (click_before_load_changes_nothing
                  AgentStep.initial_agents 0 Scenarios.nothing_selected
                  eq_refl)).
Defined.

(** X23. The Next button is disabled while no slug is selected.  After
    a click on a loaded card it is disabled exactly when that card's slug
    consists of white space only, so any card with a visible slug enables
    it. *)
Theorem next_button_follows_selection (Other : Type)
    (agents : list Onboarding.StoreAgentDetails) (i : nat)
    (agent : Onboarding.StoreAgentDetails)
    (state : Onboarding.OnboardingState Other) :
  nth_error agents i = Some agent ->
  (Onboarding.selectedAgentSlug state = None ->
   Onboarding.next_disabled state = true)
  /\ Onboarding.next_disabled (Async.exec (Onboarding.onClick agents i) state)
     = forallb Js.is_whitespace (Onboarding.slug agent).
Proof.
  intros H; split.
  - unfold Onboarding.next_disabled; intros ->; reflexivity.
  - unfold Async.exec; rewrite (@onClick_loaded Other agents i agent state H).
    unfold Onboarding.next_disabled, Onboarding.isEmptyOrWhitespace; cbn.
    rewrite <- Js_falsy_trim.
    destruct (Onboarding.slug agent) as [|c s]; [reflexivity|].
    destruct (Js.trim (c :: s)); reflexivity.
Qed.

Lemma next_button_run :
  Onboarding.next_disabled Scenarios.nothing_selected = true
  /\ Onboarding.next_disabled
       (Async.exec (Onboarding.onClick Cases.loaded_agents 1)
          Scenarios.nothing_selected)
     = false.
Proof.
  pose proof (next_button_follows_selection
                Cases.loaded_agents 1 Scenarios.nothing_selected eq_refl)
    as [H1 H2].
  split; [exact (H1 eq_refl) | exact H2].
Defined.

(** X24. After a click on a loaded card, a card is shown as selected
    exactly when its slug equals the clicked card's slug: the clicked
    card always is, and another card is too when it has the same slug,
    whatever its creator. *)
Theorem highlight_compares_slugs (Other : Type)
    (agents : list Onboarding.StoreAgentDetails) (i j : nat)
    (clicked shown : Onboarding.StoreAgentDetails)
    (state : Onboarding.OnboardingState Other) :
  nth_error agents i = Some clicked ->
  nth_error agents j = Some shown ->
  Onboarding.selected agents i
    (Async.exec (Onboarding.onClick agents i) state) = true
  /\ (Onboarding.selected agents j
        (Async.exec (Onboarding.onClick agents i) state) = true
      <-> Onboarding.slug shown = Onboarding.slug clicked).
Proof.
  intros Hi Hj; unfold Async.exec.
  rewrite (@onClick_loaded Other agents i clicked state Hi).
  unfold Onboarding.selected; rewrite Hi, Hj; cbn.
  split; [apply Js_eqb_eq; reflexivity|].
  rewrite Js_eqb_eq; split; intros H; symmetry; exact H.
Qed.

Lemma highlight_run :
  Onboarding.selected Cases.loaded_agents 0
    (Async.exec (Onboarding.onClick Cases.loaded_agents 0)
       Scenarios.nothing_selected) = true
  /\ Onboarding.selected Cases.loaded_agents 1
       (Async.exec (Onboarding.onClick Cases.loaded_agents 0)
          Scenarios.nothing_selected) <> true.
Proof.
  pose proof (highlight_compares_slugs
                Cases.loaded_agents 0 1 Scenarios.nothing_selected
                eq_refl eq_refl) as [H1 H2].
  split; [exact H1|].
  intros H; apply H2 in H; discriminate H.
Defined.

(** X25. The two agents are loaded together or not at all.  When both
    lookups succeed, each card selects its own agent; when either lookup
    is rejected, the array stays empty and a click on either card, also
    the one whose lookup succeeded, leaves the wizard state unchanged. *)
Theorem agents_load_together (Other : Type)
    (first second : Completion Onboarding.StoreAgentDetails)
    (state : Onboarding.OnboardingState Other) :
  let agents :=
    AgentStep.load_agents first second AgentStep.initial_agents in
  (forall a b,
     first = Normal a -> second = Normal b ->
     agents = [a; b]
     /\ Onboarding.selectedAgentSlug
          (Async.exec (Onboarding.onClick agents 0) state)
        = Some (Onboarding.slug a)
     /\ Onboarding.selectedAgentSlug
          (Async.exec (Onboarding.onClick agents 1) state)
        = Some (Onboarding.slug b))
  /\ ((exists e, first = Throw e) \/ (exists e, second = Throw e) ->
      agents = []
      /\ forall i, Async.exec (Onboarding.onClick agents i) state = state).
Proof.
  intros agents; subst agents; split.
  - intros a b -> ->; repeat split.
  - intros H.
    assert (Hnil : AgentStep.load_agents first second AgentStep.initial_agents
                   = []).
    { destruct H as [[e ->]|[e ->]]; [reflexivity|].
      destruct first; reflexivity. }
    rewrite Hnil; split; [reflexivity|].
    intros i; unfold Async.exec.
    rewrite (onClick_unloaded [] i state); [reflexivity|].
    destruct i; reflexivity.
Qed.

Lemma agents_load_run :
  AgentStep.load_agents (Normal Scenarios.subtractor)
    (Throw Scenarios.failed_to_fetch) AgentStep.initial_agents
  = []
  /\ Cases.loaded_agents = [Scenarios.subtractor; Scenarios.power].
Proof.
  split.
  - exact (proj1 (proj2 (agents_load_together
                           (Normal Scenarios.subtractor)
                           (Throw Scenarios.failed_to_fetch)
                           Scenarios.nothing_selected)
                    (or_intror (ex_intro _ Scenarios.failed_to_fetch
                                  eq_refl)))).
  - exact (proj1 (proj1 (agents_load_together
                           (Normal Scenarios.subtractor)
                           (Normal Scenarios.power)
                           Scenarios.nothing_selected)
                    _ _ eq_refl eq_refl)).
Defined.

(** ** The markdown [code] component *)

Lemma strip_prefix_app (p s : Js.str) :
  Markdown.strip_prefix p (p ++ s) = Some s.
Proof.
  induction p as [|c p IH]; simpl; [reflexivity|].
  rewrite N.eqb_refl; exact IH.
Qed.

Lemma strip_prefix_inv (p s r : Js.str) :
  Markdown.strip_prefix p s = Some r -> s = p ++ r.
Proof.
  revert s; induction p as [|c p IH]; intros [|d s]; simpl;
    try discriminate; intros H.
  - inversion H; reflexivity.
  - inversion H; reflexivity.
  - destruct (c =? d)%N eqn:Hc; [|discriminate].
    apply N.eqb_eq in Hc; subst d.
    rewrite (IH s H); reflexivity.
Qed.

Lemma language_at_inv (s w : Js.str) :
  Markdown.language_at s = Some w ->
  exists c rest,
    s = Js.lit "language-" ++ c :: rest /\ Markdown.is_word c = true.
Proof.
  unfold Markdown.language_at.
  destruct (Markdown.strip_prefix (Js.lit "language-") s) as [r|] eqn:Hp;
    [|discriminate].
  apply strip_prefix_inv in Hp.
  destruct r as [|c r]; simpl; [discriminate|].
  destruct (Markdown.is_word c) eqn:Hc; [|discriminate].
  intros _; exists c, r; auto.
Qed.

Lemma exec_language_eq (s : Js.str) :
  Markdown.exec_language s
  = match Markdown.language_at s with
    | Some w => Some w
    | None =>
        match s with
        | [] => None
        | _ :: r => Markdown.exec_language r
        end
    end.
Proof. destruct s; reflexivity. Qed.

Lemma exec_language_inv (s w : Js.str) :
  Markdown.exec_language s = Some w ->
  exists pre c rest,
    s = pre ++ Js.lit "language-" ++ c :: rest /\ Markdown.is_word c = true.
Proof.
  induction s as [|a s IH].
  - simpl; destruct (Markdown.language_at []) eqn:H; [|discriminate].
    intros _; destruct (language_at_inv _ H) as [c [rest [Hs _]]].
    discriminate Hs.
  - change (Markdown.exec_language (a :: s)) with
      (match Markdown.language_at (a :: s) with
       | Some w => Some w
       | None => Markdown.exec_language s
       end).
    destruct (Markdown.language_at (a :: s)) eqn:H.
    + intros _; destruct (language_at_inv _ H) as [c [rest [Hs Hc]]].
      exists [], c, rest; auto.
    + intros H'; destruct (IH H') as [pre [c [rest [Hs Hc]]]].
      exists (a :: pre), c, rest; rewrite Hs; auto.
Qed.

Lemma exec_language_found (pre rest : Js.str) (c : Js.code_unit) :
  Markdown.is_word c = true ->
  Markdown.exec_language (pre ++ Js.lit "language-" ++ c :: rest) <> None.
Proof.
  intros Hc.
  assert (Hat : Markdown.language_at (Js.lit "language-" ++ c :: rest) <> None).
  { unfold Markdown.language_at; rewrite strip_prefix_app; simpl.
    rewrite Hc; discriminate. }
  induction pre as [|a pre IH].
  - change ([] ++ Js.lit "language-" ++ c :: rest)
      with (Js.lit "language-" ++ c :: rest).
    rewrite exec_language_eq.
    destruct (Markdown.language_at _); [discriminate | contradiction].
  - change ((a :: pre) ++ Js.lit "language-" ++ c :: rest)
      with (a :: (pre ++ Js.lit "language-" ++ c :: rest)).
    rewrite exec_language_eq.
    destruct (Markdown.language_at (a :: _)); [discriminate | exact IH].
Qed.

(** X26. The [code] component renders a block exactly when the class
    name contains "language-" immediately followed by a word character
    (a letter, a digit or an underscore); without a class name, or with
    "language-" followed by nothing or by another character, it renders
    inline code. *)
Theorem code_block_iff_language_class (className : option Js.str) :
  Markdown.code className = Markdown.Block
  <-> exists pre c rest,
        className = Some (pre ++ Js.lit "language-" ++ c :: rest)
        /\ Markdown.is_word c = true.
Proof.
  unfold Markdown.code.
  assert (Hor : forall s, Js.or_else s [] = s) by (intros [|x s]; reflexivity).
  split.
  - destruct className as [s|]; rewrite Hor.
    + destruct (Markdown.exec_language s) as [w|] eqn:H; [|discriminate].
      intros _; destruct (exec_language_inv _ H) as [pre [c [rest [Hs Hc]]]].
      exists pre, c, rest; rewrite Hs; auto.
    + destruct (Markdown.exec_language []) as [w|] eqn:H; [|discriminate].
      destruct (exec_language_inv _ H) as [pre [c [rest [Hs _]]]].
      destruct pre; discriminate Hs.
  - intros [pre [c [rest [-> Hc]]]]; rewrite Hor.
    pose proof (exec_language_found pre rest c Hc) as H.
    destruct (Markdown.exec_language _); [reflexivity | contradiction].
Qed.

(** * The handlers between their awaits *)

(** ** [handleSubmit], cut at its awaits *)

Lemma settle_all_suspended (env : Otto.Env) (r : Otto.WidgetState) (k : nat)
    (a : Flight.Await) (w : Otto.World) :
  Flight.settle_all env r (S k) (w, Some a)
  = Flight.settle_all env r k (Flight.resume env r a w).
Proof. reflexivity. Qed.

Lemma settle_all_done (env : Otto.Env) (r : Otto.WidgetState) (k : nat)
    (w : Otto.World) :
  Flight.settle_all env r k (w, None) = w.
Proof. destruct k; reflexivity. Qed.

Ltac rewrite_outcomes :=
  repeat match goal with
         | H : Otto.supabase _ = _ |- _ => rewrite H
         | H : Otto.fetch _ _ = _ |- _ => rewrite H
         | H : Otto.Response.ok _ = _ |- _ => rewrite H
         | H : N.eqb (Otto.Response.status _) _ = _ |- _ => rewrite H
         | H : Otto.Response.json _ = _ |- _ => rewrite H
         | H : orb _ _ = _ |- _ => rewrite H
         end.

(** Runs the pieces of a cut handler whose outcomes are known. *)
Ltac settle_flight :=
  try unfold Flight.start; try unfold Flight.resume;
  rewrite_outcomes; cbn [negb]; cbv beta iota zeta;
  repeat (first
            [ rewrite settle_all_done
            | rewrite settle_all_suspended; unfold Flight.resume at 1;
              cbv beta iota zeta; rewrite_outcomes; cbn [negb];
              cbv beta iota zeta ]).

(** Pushes a store through the statements of a piece. *)
Ltac exec_store :=
  unfold Async.exec, Flight.recover, Flight.send, Otto.preventDefault,
    Otto.toast, Otto.console_error, Otto.setMessages, Otto.setInputValue,
    Otto.setIsProcessing, Otto.setIncludeGraphData;
  repeat (exec_step; cbv beta iota zeta);
  cbn [fst snd Otto.with_view Otto.value
       Otto.view Otto.messages Otto.requests Otto.toasts
       Otto.console_errors Otto.isProcessing Otto.includeGraphData
       Otto.inputValue Otto.isOpen Otto.defaultPrevented].

(** The store a call made from render [r] ends with, computed once. *)
Ltac run_handler env r w :=
  let E := fresh "E" in
  eassert (E : Async.exec (Otto.handleSubmit env r) w = _)
    by (exec_handler; reflexivity);
  rewrite E; clear E;
  cbn [fst snd Otto.with_view Otto.value Otto.view Otto.messages
       Otto.requests Otto.toasts Otto.console_errors Otto.isProcessing
       Otto.includeGraphData Otto.inputValue Otto.isOpen
       Otto.defaultPrevented].

(** The paths of a call made from render [r] that has passed the guard. *)
Ltac handler_paths env r :=
  destruct (Otto.supabase env) as [[[?session|]|?e]|] eqn:?Hs;
  [ match goal with
    | session : Otto.Session |- _ =>
        destruct (Otto.fetch env
                    (Otto.ask_request env session
                       (Otto.ask_payload env r
                          (Js.trim (Otto.inputValue r)))))
          as [?resp|?e] eqn:?Hf
    end;
    [ match goal with
      | resp : Otto.Response.t |- _ =>
          destruct (Otto.Response.ok resp) eqn:?Hok;
          [ destruct (Otto.Response.json resp) as [?data|?e] eqn:?Hj
          | destruct (N.eqb (Otto.Response.status resp) 401) eqn:?H401 ]
      end
    | ]
  | | | ].

(** Run with nothing in between, the cut handler is the handler. *)
Lemma settle_all_handleSubmit (env : Otto.Env) (r : Otto.WidgetState)
    (w : Otto.World) :
  Flight.settle_all env r 3 (Flight.start env r w)
  = Async.exec (Otto.handleSubmit env r) w.
Proof.
  destruct (Js.falsy (Js.trim (Otto.inputValue r)) || Otto.isProcessing r)
    eqn:Hg.
  { settle_flight; exec_handler; reflexivity. }
  handler_paths env r; run_handler env r w; settle_flight; exec_store;
    reflexivity.
Qed.

(** ** What each piece of [handleSubmit] does to the store *)

Lemma Js_slice_drop_last_tail (A : Type) (base tail : list A) :
  tail <> [] ->
  Js.slice (base ++ tail) 0 (-1) = base ++ removelast tail.
Proof.
  intros H; rewrite Js_slice_drop_last; apply removelast_app; exact H.
Qed.

Lemma start_blocked (env : Otto.Env) (r : Otto.WidgetState) (w : Otto.World) :
  Js.falsy (Js.trim (Otto.inputValue r)) || Otto.isProcessing r = true ->
  Flight.start env r w = (Async.exec Otto.preventDefault w, None).
Proof. intros Hg; unfold Flight.start; rewrite Hg; reflexivity. Qed.

Lemma start_accepted (env : Otto.Env) (r : Otto.WidgetState) (w : Otto.World) :
  Js.falsy (Js.trim (Otto.inputValue r)) || Otto.isProcessing r = false ->
  Otto.includeGraphData (Otto.view (fst (Flight.start env r w)))
  = Otto.includeGraphData (Otto.view w)
  /\ Otto.requests (fst (Flight.start env r w)) = Otto.requests w
  /\ match snd (Flight.start env r w) with
     | None =>
         Otto.supabase env = None
         /\ Otto.isProcessing (Otto.view (fst (Flight.start env r w))) = false
         /\ exists m,
              Otto.messages (Otto.view (fst (Flight.start env r w)))
              = Otto.messages (Otto.view w) ++ [m]
     | Some a =>
         (exists g, a = Flight.AwaitSession g /\ Otto.supabase env = Some g)
         /\ Otto.isProcessing (Otto.view (fst (Flight.start env r w))) = true
         /\ Otto.messages (Otto.view (fst (Flight.start env r w)))
            = Otto.messages (Otto.view w)
                ++ [ {| Otto.type := Otto.user;
                        Otto.content := Js.trim (Otto.inputValue r) |} ]
     end.
Proof.
  intros Hg; unfold Flight.start; rewrite Hg; cbv beta iota zeta.
  destruct (Otto.supabase env) as [g|]; cbn [fst snd]; exec_store.
  - repeat split; exists g; split; reflexivity.
  - rewrite Js_slice_drop_last_app.
    repeat split; eexists; reflexivity.
Qed.

(** A resumed call either ends, with the in-flight flag down and the
    last transcript element replaced; or sends the request, with the
    graph-data flag down and the placeholder appended; or goes on to read
    the body, changing nothing. *)
Lemma resume_cases (env : Otto.Env) (r : Otto.WidgetState) (a : Flight.Await)
    (w : Otto.World) :
  match snd (Flight.resume env r a w) with
  | None =>
      (forall session, a <> Flight.AwaitSession (Normal (Some session)))
      /\ Otto.isProcessing (Otto.view (fst (Flight.resume env r a w))) = false
      /\ Otto.includeGraphData (Otto.view (fst (Flight.resume env r a w)))
         = Otto.includeGraphData (Otto.view w)
      /\ Otto.requests (fst (Flight.resume env r a w)) = Otto.requests w
      /\ exists m,
           Otto.messages (Otto.view (fst (Flight.resume env r a w)))
           = Js.slice (Otto.messages (Otto.view w)) 0 (-1) ++ [m]
  | Some (Flight.AwaitFetch p) =>
      exists session,
        a = Flight.AwaitSession (Normal (Some session))
        /\ p = Otto.fetch env
                 (Otto.ask_request env session
                    (Otto.ask_payload env r (Js.trim (Otto.inputValue r))))
        /\ Otto.isProcessing (Otto.view (fst (Flight.resume env r a w)))
           = Otto.isProcessing (Otto.view w)
        /\ Otto.includeGraphData (Otto.view (fst (Flight.resume env r a w)))
           = false
        /\ Otto.requests (fst (Flight.resume env r a w))
           = Otto.requests w
               ++ [ Otto.ask_request env session
                      (Otto.ask_payload env r (Js.trim (Otto.inputValue r))) ]
        /\ Otto.messages (Otto.view (fst (Flight.resume env r a w)))
           = Otto.messages (Otto.view w) ++ [Otto.processing_message]
  | Some (Flight.AwaitJson p) =>
      fst (Flight.resume env r a w) = w
      /\ exists response,
           a = Flight.AwaitFetch (Normal response)
           /\ Otto.Response.ok response = true
           /\ p = Otto.Response.json response
  | Some (Flight.AwaitSession _) => False
  end.
Proof.
  destruct a as [[[session|]|e]|[response|e]|[data|e]];
    unfold Flight.resume; cbv beta iota zeta.
  - cbn [fst snd]; exec_store; exists session; repeat split.
  - cbn [fst snd]; exec_store.
    repeat split; try discriminate; eexists; reflexivity.
  - cbn [fst snd]; exec_store.
    repeat split; try discriminate; eexists; reflexivity.
  - destruct (Otto.Response.ok response) eqn:Hok; cbn [negb];
      cbv beta iota.
    + cbn [fst snd]; split; [reflexivity|].
      exists response; repeat split; exact Hok.
    + destruct (Otto.Response.status response =? 401)%N;
        cbn [fst snd]; exec_store;
        repeat split; try discriminate; eexists; reflexivity.
  - cbn [fst snd]; exec_store.
    repeat split; try discriminate; eexists; reflexivity.
  - cbn [fst snd]; exec_store.
    repeat split; try discriminate; eexists; reflexivity.
  - cbn [fst snd]; exec_store.
    repeat split; try discriminate; eexists; reflexivity.
Qed.

Lemma start_flag (env : Otto.Env) (r : Otto.WidgetState) (w : Otto.World) :
  Otto.includeGraphData (Otto.view (fst (Flight.start env r w)))
  = Otto.includeGraphData (Otto.view w).
Proof.
  destruct (Js.falsy (Js.trim (Otto.inputValue r)) || Otto.isProcessing r)
    eqn:Hg.
  - rewrite (start_blocked env r w Hg); reflexivity.
  - exact (proj1 (start_accepted env r w Hg)).
Qed.

Lemma resume_flag (env : Otto.Env) (r : Otto.WidgetState) (a : Flight.Await)
    (w : Otto.World) :
  Otto.includeGraphData (Otto.view (fst (Flight.resume env r a w)))
  = match a with
    | Flight.AwaitSession (Normal (Some _)) => false
    | _ => Otto.includeGraphData (Otto.view w)
    end.
Proof.
  pose proof (resume_cases env r a w) as H.
  destruct (snd (Flight.resume env r a w)) as [[g|p|p]|].
  - contradiction.
  - destruct H as [session [-> [_ [_ [Hf _]]]]]; exact Hf.
  - destruct H as [Hw [response [-> _]]]; rewrite Hw; reflexivity.
  - destruct H as [Hno [_ [Hf _]]]; rewrite Hf.
    destruct a as [[[session|]|e]|[response|e]|[data|e]]; try reflexivity.
    exfalso; exact (Hno session eq_refl).
Qed.

(** ** The widget with calls in flight *)

Lemma keeps_step (base : list Otto.Message) (s : Flight.Widget)
    (ev : Flight.Event) :
  FlightInvariant.keeps base s ->
  FlightInvariant.keeps base (Flight.step s ev).
Proof.
  destruct s as [w pending]; unfold FlightInvariant.keeps;
    cbn [Flight.world Flight.pending].
  intros [[Hp [Hproc [t Hm]]]|[c [Hp [Hproc [t [Hne Hm]]]]]]; subst pending.
  - (* nothing in flight *)
    destruct ev as [env|n|text| | |]; unfold Flight.step; cbv zeta;
      cbn [Flight.world Flight.pending].
    + destruct (Js.falsy (Js.trim (Otto.inputValue (Otto.view w)))
                || Otto.isProcessing (Otto.view w)) eqn:Hg.
      * rewrite (start_blocked env _ w Hg); cbn [fst snd Flight.suspended app].
        left; repeat split; [exact Hproc|exists t; exact Hm].
      * destruct (start_accepted env (Otto.view w) w Hg) as [_ [_ H]].
        destruct (Flight.start env (Otto.view w) w) as [W next];
          cbn [fst snd] in *.
        destruct next as [a|];
          cbn [Flight.suspended app Flight.world Flight.pending].
        -- destruct H as [_ [HP HM]].
           right; eexists; split; [reflexivity|]; split; [exact HP|].
           eexists; split; [|rewrite HM, Hm, <- app_assoc; reflexivity].
           intros Hnil; apply app_eq_nil in Hnil as [_ Hnil]; discriminate.
        -- destruct H as [_ [HP [m HM]]].
           left; repeat split; [exact HP|].
           eexists; rewrite HM, Hm, <- app_assoc; reflexivity.
    + destruct n; cbn [nth_error]; left; repeat split;
        [exact Hproc | exists t; exact Hm | exact Hproc | exists t; exact Hm].
    + rewrite Hproc; cbn [Flight.world Flight.pending].
      left; repeat split; [exact Hproc | exists t; exact Hm].
    + left; repeat split; [exact Hproc | exists t; exact Hm].
    + left; repeat split; [exact Hproc | exists t; exact Hm].
    + left; repeat split; [exact Hproc | exists t; exact Hm].
  - (* one call in flight *)
    destruct ev as [env|n|text| | |]; unfold Flight.step; cbv zeta;
      cbn [Flight.world Flight.pending].
    + assert (Hg : Js.falsy (Js.trim (Otto.inputValue (Otto.view w)))
                   || Otto.isProcessing (Otto.view w) = true)
        by (rewrite Hproc; apply orb_true_r).
      rewrite (start_blocked env _ w Hg); cbn [fst snd Flight.suspended app].
      right; exists c; repeat split; [exact Hproc|].
      exists t; split; [exact Hne | exact Hm].
    + destruct n as [|n]; cbn [nth_error].
      * pose proof (resume_cases (Flight.call_env c) (Flight.call_render c)
                      (Flight.awaiting c) w) as H.
        destruct (Flight.resume (Flight.call_env c) (Flight.call_render c)
                    (Flight.awaiting c) w) as [W next]; cbn [fst snd] in *.
        destruct next as [[g|p|p]|];
          cbn [Flight.suspended firstn skipn app Flight.world
               Flight.pending].
        -- contradiction.
        -- destruct H as [session [_ [_ [HP [_ [_ HM]]]]]].
           right; eexists; split; [reflexivity|].
           split; [rewrite HP; exact Hproc|].
           eexists; split; [|rewrite HM, Hm, <- app_assoc; reflexivity].
           intros Hnil; apply app_eq_nil in Hnil as [_ Hnil]; discriminate.
        -- destruct H as [HW _]; subst W.
           right; eexists; split; [reflexivity|]; split; [exact Hproc|].
           exists t; split; [exact Hne | exact Hm].
        -- destruct H as [_ [HP [_ [_ [m HM]]]]].
           left; repeat split; [exact HP|].
           eexists; rewrite HM, Hm, (Js_slice_drop_last_tail base Hne),
             <- app_assoc; reflexivity.
      * destruct n; cbn [nth_error].
        -- right; exists c; repeat split; [exact Hproc|].
           exists t; split; [exact Hne | exact Hm].
        -- right; exists c; repeat split; [exact Hproc|].
           exists t; split; [exact Hne | exact Hm].
    + rewrite Hproc; cbn [Flight.world Flight.pending].
      right; exists c; repeat split; [exact Hproc|].
      exists t; split; [exact Hne | exact Hm].
    + right; exists c; repeat split; [exact Hproc|].
      exists t; split; [exact Hne | exact Hm].
    + right; exists c; repeat split; [exact Hproc|].
      exists t; split; [exact Hne | exact Hm].
    + right; exists c; repeat split; [exact Hproc|].
      exists t; split; [exact Hne | exact Hm].
Qed.

Lemma keeps_events (base : list Otto.Message) (events : list Flight.Event)
    (s : Flight.Widget) :
  FlightInvariant.keeps base s ->
  FlightInvariant.keeps base (fold_left Flight.step events s).
Proof.
  revert s; induction events as [|ev events IH]; intros s H; simpl;
    [exact H|].
  apply IH, keeps_step, H.
Qed.

Lemma step_flag (s : Flight.Widget) (ev : Flight.Event) :
  Otto.includeGraphData (Otto.view (Flight.world s)) = false ->
  ev <> Flight.ToggleGraphData ->
  Otto.includeGraphData (Otto.view (Flight.world (Flight.step s ev))) = false.
Proof.
  intros Hf Hev; destruct ev as [env|n|text| | |]; unfold Flight.step;
    cbv zeta; cbn [Flight.world].
  - rewrite start_flag; exact Hf.
  - destruct (nth_error (Flight.pending s) n) as [c|]; [|exact Hf].
    cbn [Flight.world]; rewrite resume_flag.
    destruct (Flight.awaiting c) as [[[session|]|e]|p|p];
      try reflexivity; exact Hf.
  - destruct (Otto.isProcessing (Otto.view (Flight.world s))); exact Hf.
  - contradiction.
  - exact Hf.
  - exact Hf.
Qed.

Lemma events_flag (events : list Flight.Event) (s : Flight.Widget) :
  Otto.includeGraphData (Otto.view (Flight.world s)) = false ->
  FlightInvariant.no_toggle events = true ->
  Otto.includeGraphData
    (Otto.view (Flight.world (fold_left Flight.step events s))) = false.
Proof.
  revert s; induction events as [|ev events IH]; intros s Hf Hn; simpl;
    [exact Hf|].
  apply IH.
  - apply step_flag; [exact Hf|].
    intros ->; discriminate Hn.
  - destruct ev; try exact Hn; discriminate Hn.
Qed.

(** ** Claims about the chat widget that bear on states in flight *)

(** C6, amended. When a call has passed the guard and found a session,
    the handler sets the graph-data flag to false after building the
    payload and before the request leaves: the request carries the value
    the flag had in the render, and the store holds false when the request
    is sent, whatever it held before.  The handler writes the flag at no
    other point, neither before the session is known nor when the call
    ends without a session nor after the request has left.  So once the
    request has left the flag stays false until the graph-data button is
    pressed: a call during which it is not pressed ends with the flag
    false, however the backend call ends, and a call that finds no session
    leaves the flag as it was. *)
Theorem C6_flag_cleared_before_request_leaves :
  (forall env r session w,
     let rq :=
       Otto.ask_request env session
         (Otto.ask_payload env r (Js.trim (Otto.inputValue r))) in
     let resumed :=
       Flight.resume env r (Flight.AwaitSession (Normal (Some session))) w in
     Otto.includeGraphData (Otto.view (fst resumed)) = false
     /\ Otto.requests (fst resumed) = Otto.requests w ++ [rq]
     /\ Otto.Payload.include_graph_data (Otto.Request.body rq)
        = Otto.includeGraphData r
     /\ snd resumed = Some (Flight.AwaitFetch (Otto.fetch env rq)))
  /\ (forall env r w,
        Otto.includeGraphData (Otto.view (fst (Flight.start env r w)))
        = Otto.includeGraphData (Otto.view w))
  /\ (forall env r a w,
        (forall session,
           a <> Flight.AwaitSession (Normal (Some session))) ->
        Otto.includeGraphData (Otto.view (fst (Flight.resume env r a w)))
        = Otto.includeGraphData (Otto.view w))
  /\ (forall s events,
        Otto.includeGraphData (Otto.view (Flight.world s)) = false ->
        FlightInvariant.no_toggle events = true ->
        Otto.includeGraphData
          (Otto.view (Flight.world (fold_left Flight.step events s)))
        = false)
  /\ (forall env w session,
        Js.falsy (Js.trim (Otto.inputValue (Otto.view w))) = false ->
        Otto.isProcessing (Otto.view w) = false ->
        Otto.supabase env = Some (Normal (Some session)) ->
        Otto.includeGraphData
          (Otto.view
             (Flight.settle_all env (Otto.view w) 3
                (Flight.start env (Otto.view w) w)))
        = false
        /\ Otto.includeGraphData (Otto.view (Otto.submit env w)) = false)
  /\ (forall env w,
        Js.falsy (Js.trim (Otto.inputValue (Otto.view w))) = false ->
        Otto.isProcessing (Otto.view w) = false ->
        Otto.supabase env = Some (Normal None) ->
        Otto.includeGraphData (Otto.view (Otto.submit env w))
        = Otto.includeGraphData (Otto.view w)).
Proof.
  split; [|split; [|split; [|split; [|split]]]].
  - intros env r session w rq resumed; subst rq resumed.
    unfold Flight.resume; cbn [fst snd]; exec_store; repeat split.
  - exact start_flag.
  - intros env r a w Hno; rewrite resume_flag.
    destruct a as [[[session|]|e]|p|p]; try reflexivity.
    exfalso; exact (Hno session eq_refl).
  - intros s events; apply events_flag.
  - intros env w session Ht Hp Hs.
    assert (Hg : Js.falsy (Js.trim (Otto.inputValue (Otto.view w)))
                 || Otto.isProcessing (Otto.view w) = false)
      by (rewrite Ht, Hp; reflexivity).
    rewrite settle_all_handleSubmit.
    split; exact (submit_clears_flag env w Hg Hs).
  - intros env w Ht Hp Hs; apply submit_keeps_flag; auto.
Qed.

Lemma C6_flag_in_flight_runs :
  Otto.includeGraphData (Otto.view (Flight.world Cases.request_in_flight))
  = false
  /\ Otto.includeGraphData
       (Otto.view
          (Flight.world
             (fold_left Flight.step
                [Flight.CloseChat; Flight.Settle 0; Flight.Settle 0]
                Cases.request_in_flight)))
     = false
  /\ Otto.includeGraphData
       (Otto.view (Otto.submit Scenarios.unauthorized Scenarios.asking))
     = false
  /\ Otto.includeGraphData
       (Otto.view (Otto.submit Scenarios.signed_out Scenarios.asking))
     = true
  /\ Otto.includeGraphData (Otto.view (Flight.world Cases.toggled_in_flight))
     = true.
Proof.
  destruct C6_flag_cleared_before_request_leaves
    as [_ [_ [_ [Hstays [Hsession Hnone]]]]].
  split; [reflexivity|].
  split; [exact (Hstays Cases.request_in_flight
                   [Flight.CloseChat; Flight.Settle 0; Flight.Settle 0]
                   eq_refl eq_refl)|].
  split; [exact (proj2 (Hsession Scenarios.unauthorized Scenarios.asking _
                          eq_refl eq_refl eq_refl))|].
  split; [exact (Hnone Scenarios.signed_out Scenarios.asking
                   eq_refl eq_refl eq_refl)|].
  reflexivity.
Defined.

(** C9. A call made from a render that passes the guard resets the
    in-flight flag on every path: whatever the store holds when the call
    begins, with the flag already up included, the store holds false when
    the call has completed, and the handler completes normally.  Cut at
    the awaits: the call raises the flag whenever it suspends, and every
    way it can end, after whatever has happened in between, sets the flag
    to false. *)
Theorem C9_in_flight_flag_reset (env : Otto.Env) (r : Otto.WidgetState)
    (w : Otto.World) :
  Js.falsy (Js.trim (Otto.inputValue r)) = false ->
  Otto.isProcessing r = false ->
  Otto.isProcessing (Otto.view (Async.exec (Otto.handleSubmit env r) w))
  = false
  /\ snd (Otto.handleSubmit env r w) = Normal tt
  /\ Otto.isProcessing (Otto.view (fst (Flight.start env r w)))
     = match snd (Flight.start env r w) with
       | Some _ => true
       | None => false
       end
  /\ (forall a w',
        snd (Flight.resume env r a w') = None ->
        Otto.isProcessing (Otto.view (fst (Flight.resume env r a w')))
        = false).
Proof.
  intros Ht Hp.
  assert (Hg : Js.falsy (Js.trim (Otto.inputValue r)) || Otto.isProcessing r
               = false)
    by (rewrite Ht, Hp; reflexivity).
  split; [|split; [|split]].
  - handler_paths env r; run_handler env r w; reflexivity.
  - handler_paths env r; exec_handler; reflexivity.
  - destruct (start_accepted env r w Hg) as [_ [_ H]].
    destruct (snd (Flight.start env r w)) as [a|].
    + destruct H as [_ [H _]]; exact H.
    + destruct H as [_ [H _]]; exact H.
  - intros a w' Hend.
    pose proof (resume_cases env r a w') as H; rewrite Hend in H.
    destruct H as [_ [H _]]; exact H.
Qed.

Lemma C9_reset_runs :
  Otto.isProcessing (Otto.view Scenarios.busy) = true
  /\ Otto.isProcessing
       (Otto.view
          (Async.exec
             (Otto.handleSubmit Scenarios.signed_out
                (Otto.view Scenarios.asking))
             Scenarios.busy))
     = false
  /\ Otto.isProcessing
       (Otto.view
          (Async.exec
             (Otto.handleSubmit Scenarios.answered
                (Otto.view Scenarios.asking))
             Scenarios.busy))
     = false.
Proof.
  split; [reflexivity|]; split.
  - exact (proj1 (C9_in_flight_flag_reset Scenarios.signed_out
                    (Otto.view Scenarios.asking) Scenarios.busy
                    eq_refl eq_refl)).
  - exact (proj1 (C9_in_flight_flag_reset Scenarios.answered
                    (Otto.view Scenarios.asking) Scenarios.busy
                    eq_refl eq_refl)).
Defined.

Lemma keeps_mounted :
  FlightInvariant.keeps [] Flight.mounted
  /\ FlightInvariant.keeps [Otto.welcome_message] Flight.mounted.
Proof.
  split; left; repeat split.
  - exists [Otto.welcome_message]; reflexivity.
  - exists []; reflexivity.
Qed.

(** X10. With the awaits of the handler open to other events
    (submissions, settlements in any order, presses of the graph-data,
    open and close buttons): at most one call is ever in flight and
    isProcessing is set exactly while one is; the messages the transcript
    holds at a moment when nothing is in flight are never removed or
    changed by anything that happens later, only what the call in flight
    has added is replaced; and the welcome message stays first. *)
Theorem settled_transcript_is_kept :
  (forall events,
     length (Flight.pending (Flight.run events)) <= 1
     /\ (Otto.isProcessing (Otto.view (Flight.world (Flight.run events)))
         = true
         <-> Flight.pending (Flight.run events) <> []))
  /\ (forall before after,
        Flight.pending (Flight.run before) = [] ->
        exists tail,
          Otto.messages
            (Otto.view (Flight.world (Flight.run (before ++ after))))
          = Otto.messages (Otto.view (Flight.world (Flight.run before)))
              ++ tail)
  /\ (forall events,
        exists rest,
          Otto.messages (Otto.view (Flight.world (Flight.run events)))
          = Otto.welcome_message :: rest).
Proof.
  assert (Hidle : forall events,
            length (Flight.pending (Flight.run events)) <= 1
            /\ (Otto.isProcessing
                  (Otto.view (Flight.world (Flight.run events))) = true
                <-> Flight.pending (Flight.run events) <> [])).
  { intros events.
    destruct (keeps_events events (proj1 keeps_mounted))
      as [[Hp [Hproc _]]|[c [Hp [Hproc _]]]];
      fold (Flight.run events) in *; rewrite Hp, Hproc; simpl.
    - split; [lia|]; split; [discriminate | intros H; contradiction].
    - split; [lia|]; split; [discriminate | reflexivity]. }
  split; [exact Hidle|]; split.
  - intros before after Hp.
    unfold Flight.run at 1; rewrite fold_left_app;
      fold (Flight.run before).
    assert (Hkeeps : FlightInvariant.keeps
                       (Otto.messages
                          (Otto.view (Flight.world (Flight.run before))))
                       (Flight.run before)).
    { left; split; [exact Hp|]; split.
      - destruct (Otto.isProcessing
                    (Otto.view (Flight.world (Flight.run before)))) eqn:H;
          [|reflexivity].
        apply (proj2 (Hidle before)) in H; contradiction.
      - exists []; symmetry; apply app_nil_r. }
    destruct (keeps_events after Hkeeps)
      as [[_ [_ [t Hm]]]|[c [_ [_ [t [_ Hm]]]]]]; exists t; exact Hm.
  - intros events.
    destruct (keeps_events events (proj2 keeps_mounted))
      as [[_ [_ [t Hm]]]|[c [_ [_ [t [_ Hm]]]]]]; exists t; exact Hm.
Qed.

(** ** The calls of the credits hook, cut at their awaits *)

Section CreditsFlightFacts.

Variables number Transaction Time Server : Type.
Variable api : Credits.AutoGPTServerAPI number Transaction Time Server.

(** Run with nothing in between, the cut calls are the calls. *)
Lemma fetchAutoTopUpConfig_cut
    (w : Credits.World number Transaction Time Server) :
  Credits.fetchAutoTopUpConfig api w
  = @CreditsFlight.fetchAutoTopUpConfig_settle number Transaction Time
      Server
      (snd (CreditsFlight.fetchAutoTopUpConfig_start api w))
      (fst (CreditsFlight.fetchAutoTopUpConfig_start api w)).
Proof.
  unfold Credits.fetchAutoTopUpConfig,
    CreditsFlight.fetchAutoTopUpConfig_settle,
    CreditsFlight.fetchAutoTopUpConfig_start, Async.bind, Async.await.
  destruct (Credits.call _ _ w) as [w' [c|e]]; reflexivity.
Qed.

Lemma fetchTransactionHistory_cut
    (r : Credits.TransactionHistory Transaction Time)
    (w : Credits.World number Transaction Time Server) :
  Credits.fetchTransactionHistory api r w
  = @CreditsFlight.fetchTransactionHistory_settle number Transaction Time
      Server r
      (snd (CreditsFlight.fetchTransactionHistory_start api r w))
      (fst (CreditsFlight.fetchTransactionHistory_start api r w)).
Proof.
  unfold Credits.fetchTransactionHistory,
    CreditsFlight.fetchTransactionHistory_settle,
    CreditsFlight.fetchTransactionHistory_start, Async.bind, Async.await.
  destruct (Credits.call _ _ w) as [w' [c|e]]; reflexivity.
Qed.

Lemma updateAutoTopUpConfig_cut (amount threshold : number)
    (w : Credits.World number Transaction Time Server) :
  Async.exec (Credits.updateAutoTopUpConfig api amount threshold) w
  = let started :=
      CreditsFlight.updateAutoTopUpConfig_start api amount threshold w in
    let returned :=
      CreditsFlight.updateAutoTopUpConfig_return api (snd started)
        (fst started) in
    match snd returned with
    | Some read =>
        Async.exec
          (@CreditsFlight.fetchAutoTopUpConfig_settle number Transaction
             Time Server
             read)
          (fst (fst returned))
    | None => fst (fst returned)
    end.
Proof.
  unfold Credits.updateAutoTopUpConfig,
    CreditsFlight.updateAutoTopUpConfig_start,
    CreditsFlight.updateAutoTopUpConfig_return, Async.exec, Async.detached.
  cbv zeta; unfold Async.bind at 1.
  destruct (Credits.call _ _ w) as [w1 [[]|e]]; cbn [fst snd];
    [|reflexivity].
  rewrite fetchAutoTopUpConfig_cut; reflexivity.
Qed.

End CreditsFlightFacts.

(** C2, as stated, fails: two calls made from the same render, before
    the first page has arrived, both succeed, yet both ask for the page at
    the null cursor and the second result replaces the first, so the
    history holds two transactions where the pages returned hold four. *)
Lemma C2_overlapping_calls_lose_a_page :
  Credits.pages_of (Credits.calls Cases.overlapping_fetches)
  = [ {| Credits.transactions := [50; 40];
         Credits.next_transaction_time := Some 30 |};
      {| Credits.transactions := [30; 20];
         Credits.next_transaction_time := None |} ]
  /\ Credits.history_requests (Credits.calls Cases.overlapping_fetches)
     = [(None, 20%N); (None, 20%N)]
  /\ Credits.transactions
       (Credits.transactionHistory (Credits.hook Cases.overlapping_fetches))
     = [30; 20]
  /\ length
       (Credits.transactions
          (Credits.transactionHistory
             (Credits.hook Cases.overlapping_fetches)))
     <> list_sum
          (map (fun page => length (Credits.transactions page))
             (Credits.pages_of (Credits.calls Cases.overlapping_fetches))).
Proof.
  repeat split; discriminate.
Qed.

(** C4, as stated, fails twice.  Against a backend that rejects the
    write, the call issues no read at all.  Against the backend that
    clamps the threshold, the write succeeds and the read is issued, but
    at the moment the call returns the read is still pending and the hook
    holds the configuration it had before, here none. *)
Lemma C4_read_is_neither_certain_nor_awaited :
  Credits.calls
    (Async.exec (Credits.updateAutoTopUpConfig Cases.read_only_api 25%Z 10%Z)
       Cases.fresh_hook)
  = [ Credits.SetAutoTopUpConfig nat nat
        {| Credits.amount := 25%Z; Credits.threshold := 10%Z |}
        (Throw Scenarios.failed_to_fetch) ]
  /\ snd (fst Cases.update_returned) = Normal tt
  /\ snd Cases.update_returned
     = Some (Normal {| Credits.amount := 25%Z; Credits.threshold := 100%Z |})
  /\ Credits.autoTopUpConfig (Credits.hook (fst (fst Cases.update_returned)))
     = None.
Proof. repeat split. Qed.

(** C4, amended. Every call of updateAutoTopUpConfig first issues the
    backend write, with the amount and threshold it was given, and
    changes nothing else before the write settles.  When the write is
    rejected the call fails with that rejection and issues no read.  When
    the write resolves the call issues the read and returns without
    awaiting it: at that moment the hook still holds the configuration it
    had.  When the read then resolves, whatever has happened in between,
    the hook holds the value the read returned, not the parameters of the
    write; when it is rejected the hook keeps what it holds.  Run with
    nothing in between, these pieces are the call. *)
Theorem C4_update_then_read_back
    (number Transaction Time Server : Type)
    (api : Credits.AutoGPTServerAPI number Transaction Time Server)
    (w : Credits.World number Transaction Time Server)
    (amount threshold : number) :
  let config := {| Credits.amount := amount; Credits.threshold := threshold |} in
  let started :=
    CreditsFlight.updateAutoTopUpConfig_start api amount threshold w in
  (Credits.calls (fst started)
   = Credits.calls w
       ++ [Credits.SetAutoTopUpConfig Transaction Time config (snd started)]
   /\ Credits.hook (fst started) = Credits.hook w)
  /\ (forall e w1,
        CreditsFlight.updateAutoTopUpConfig_return api (Throw e) w1
        = (w1, Throw e, None))
  /\ (forall w1,
        let returned :=
          CreditsFlight.updateAutoTopUpConfig_return api (Normal tt) w1 in
        let read :=
          snd (Credits.api_getAutoTopUpConfig api (Credits.server w1)) in
        snd returned = Some read
        /\ snd (fst returned) = Normal tt
        /\ Credits.calls (fst (fst returned))
           = Credits.calls w1
               ++ [Credits.GetAutoTopUpConfig Transaction Time read]
        /\ Credits.hook (fst (fst returned)) = Credits.hook w1)
  /\ (forall readback (w2 : Credits.World number Transaction Time Server),
        Credits.autoTopUpConfig
          (Credits.hook
             (Async.exec
                (@CreditsFlight.fetchAutoTopUpConfig_settle number
                   Transaction Time Server (Normal readback))
                w2))
        = Some readback)
  /\ (forall e (w2 : Credits.World number Transaction Time Server),
        Async.exec
          (@CreditsFlight.fetchAutoTopUpConfig_settle number Transaction
             Time Server
             (Throw e))
          w2
        = w2)
  /\ Async.exec (Credits.updateAutoTopUpConfig api amount threshold) w
     = match snd (CreditsFlight.updateAutoTopUpConfig_return api
                    (snd started) (fst started)) with
       | Some read =>
           Async.exec
             (@CreditsFlight.fetchAutoTopUpConfig_settle number
                Transaction Time Server read)
             (fst (fst (CreditsFlight.updateAutoTopUpConfig_return api
                          (snd started) (fst started))))
       | None =>
           fst (fst (CreditsFlight.updateAutoTopUpConfig_return api
                       (snd started) (fst started)))
       end.
Proof.
  intros config started; subst config started.
  split; [|split; [|split; [|split; [|split]]]].
  - unfold CreditsFlight.updateAutoTopUpConfig_start, Credits.call.
    destruct (Credits.api_setAutoTopUpConfig api _ (Credits.server w))
      as [s1 result]; split; reflexivity.
  - reflexivity.
  - intros w1 returned read; subst returned read.
    unfold CreditsFlight.updateAutoTopUpConfig_return,
      CreditsFlight.fetchAutoTopUpConfig_start, Credits.call.
    destruct (Credits.api_getAutoTopUpConfig api (Credits.server w1))
      as [s2 read]; cbn [fst snd].
    repeat split.
  - reflexivity.
  - reflexivity.
  - apply updateAutoTopUpConfig_cut.
Qed.

Lemma C4_clamped_threshold_run :
  Credits.autoTopUpConfig
    (Credits.hook
       (Async.exec
          (Credits.updateAutoTopUpConfig Scenarios.ledger_api 25%Z 10%Z)
          Cases.fresh_hook))
  = Some {| Credits.amount := 25%Z; Credits.threshold := 100%Z |}.
Proof.
  rewrite (proj2 (proj2 (proj2 (proj2 (proj2
             (C4_update_then_read_back Scenarios.ledger_api Cases.fresh_hook
                25%Z 10%Z)))))).
  exact (proj1 (proj2 (proj2 (proj2
           (C4_update_then_read_back Scenarios.ledger_api Cases.fresh_hook
              25%Z 10%Z))))
           {| Credits.amount := 25%Z; Credits.threshold := 100%Z |}
           (fst (fst Cases.update_returned))).
Defined.
